(** * Extraction-to-table pipeline of gemini-pdf-extractor

    A shallow embedding of the three Python programs of the repository

    - [MAERSK_INC_info_extraction.py]  (batch script, one row per container),
    - [MAERSK_NA_info_extractor.py]    (batch script, one row per document),
    - [app.py]                         (Flask service, one row per container),

    followed by the properties proved about them.

    Conventions of the embedding.

    - A value produced by [json.loads] is a [json]; Python's [None] is
      [JNull], an [int] is a [Z], a [float] is a binary64 [float], a [dict]
      is an association list in insertion order.
    - A string is a sequence of bytes; [str.lower] acts on the ASCII letters.
    - The model collaborator ([model.generate_content] followed by
      [json.loads]) and the spreadsheet writer ([DataFrame.to_excel]) are
      oracles handed to the programs: they either raise or return.
    - A spreadsheet holds what was written into it: [pd.read_excel] gives back
      the columns and cells of the last successful [to_excel], and a call of
      [to_excel] that raises leaves the file as it was.
    - The effects a program leaves behind are kept as a trace: the error
      reports it prints, the spreadsheet writes it attempts and its sleeps.
      The progress and summary lines of the programs (counters, the first
      characters of an answer) are not part of the trace. *)

From Stdlib Require Import List String Ascii Bool Arith Lia ZArith Floats.
Import ListNotations.
Open Scope string_scope.
#[local] Set Warnings "-register-all".

(** ** Python values *)

Module Py.

Inductive json : Type :=
| JNull
| JBool (b : bool)
| JInt (z : Z)
| JFloat (f : float)
| JStr (s : string)
| JList (l : list json)
| JObj (kv : list (string * json)).

(** A [dict] with string keys, in insertion order. *)
Definition dict : Type := list (string * json).

(** An exception: its class and [str(e)]. *)
Record exn : Type := Exn { exn_class : string; exn_msg : string }.

(** [bool(v)]. *)
Definition truthy (v : json) : bool :=
  match v with
  | JNull => false
  | JBool b => b
  | JInt z => negb (Z.eqb z 0)
  | JFloat f => negb (PrimFloat.eqb f 0%float)
  | JStr s => negb (String.eqb s "")
  | JList l => match l with [] => false | _ :: _ => true end
  | JObj kv => match kv with [] => false | _ :: _ => true end
  end.

(** [a or b]. *)
Definition py_or (a b : json) : json := if truthy a then a else b.

(** [isinstance(v, list)]. *)
Definition isinstance_list (v : json) : bool :=
  match v with JList _ => true | _ => false end.

(** [type(v).__name__]. *)
Definition type_name (v : json) : string :=
  match v with
  | JNull => "NoneType"
  | JBool _ => "bool"
  | JInt _ => "int"
  | JFloat _ => "float"
  | JStr _ => "str"
  | JList _ => "list"
  | JObj _ => "dict"
  end.

Fixpoint dict_lookup (k : string) (d : dict) : option json :=
  match d with
  | [] => None
  | (k', v) :: d' => if String.eqb k' k then Some v else dict_lookup k d'
  end.

(** [k in d]. *)
Definition dict_contains (k : string) (d : dict) : bool :=
  match dict_lookup k d with Some _ => true | None => false end.

(** [d.get(k)]: [None] for a missing key. *)
Definition dict_get (d : dict) (k : string) : json :=
  match dict_lookup k d with Some v => v | None => JNull end.

(** [d[k] = v]: an existing key keeps its place, a new one goes last. *)
Fixpoint dict_set (k : string) (v : json) (d : dict) : dict :=
  match d with
  | [] => [(k, v)]
  | (k', v') :: d' =>
      if String.eqb k' k then (k, v) :: d' else (k', v') :: dict_set k v d'
  end.

(** [enumerate(l)]. *)
Definition enumerate {A : Type} (l : list A) : list (nat * A) :=
  combine (seq 0 (List.length l)) l.

(** [s == v] for a string [s] and any value [v]. *)
Definition str_eq (s : string) (v : json) : bool :=
  match v with JStr s' => String.eqb s' s | _ => false end.

(** [s in vs] for a string [s] and a set (or list) of values. *)
Definition str_in (s : string) (vs : list json) : bool := existsb (str_eq s) vs.

(** [c.lower()] on one byte. *)
Definition lower_ascii (c : ascii) : ascii :=
  let n := nat_of_ascii c in
  if Nat.leb 65 n && Nat.leb n 90 then ascii_of_nat (n + 32) else c.

(** [s.lower()]. *)
Fixpoint lower (s : string) : string :=
  match s with
  | EmptyString => EmptyString
  | String c s' => String (lower_ascii c) (lower s')
  end.

(** [s.endswith(suffix)]. *)
Definition endswith (s suffix : string) : bool :=
  let n := String.length s in
  let m := String.length suffix in
  Nat.leb m n && String.eqb (substring (n - m) m s) suffix.

(** ['.' in s]. *)
Fixpoint contains_dot (s : string) : bool :=
  match s with
  | EmptyString => false
  | String c s' => Ascii.eqb c "." || contains_dot s'
  end.

(** [s.rsplit('.', 1)]: split at the last dot, if there is one. *)
Fixpoint rsplit_dot (s : string) : list string :=
  match s with
  | EmptyString => [EmptyString]
  | String c s' =>
      match rsplit_dot s' with
      | [head; tail] => [String c head; tail]
      | _ => if Ascii.eqb c "." then [EmptyString; s'] else [String c s']
      end
  end.

End Py.
Import Py.

(** ** DataFrames and spreadsheets *)

Module Pandas.

(** A frame or a sheet: its column names and, row by row, one cell per
    column. *)
Record table : Type := Table { columns : list string; cells : list (list json) }.

(** What the scripts build before each write:
    [df = pd.DataFrame(results)], then [df[c] = None] for every [c] of
    [cols] that is no column yet, then [df = df[cols]].  A key missing
    from a record is an empty cell. *)
Definition frame_of (cols : list string) (results : list dict) : table :=
  {| columns := cols;
     cells := map (fun r => map (dict_get r) cols) results |}.

(** [df.to_dict('records')]. *)
Definition to_dict_records (t : table) : list dict :=
  map (fun row => combine (columns t) row) (cells t).

(** The output file: unreadable for [pd.read_excel], or a sheet. *)
Inductive file_content : Type :=
| Unreadable (e : exn)
| Sheet (t : table).

End Pandas.
Import Pandas.

(** ** The collaborators *)

(** One call of the model followed by [json.loads] of its answer: anything
    raised on the way, or the decoded value. *)
Inductive outcome : Type :=
| Raises (e : exn)
| Returns (v : json).

(** What a program leaves behind. *)
Inductive effect : Type :=
| Print (line : string)
| ToExcel (t : table) (raised : option exn)
| Sleep (seconds : nat).

(** A run of a batch script ends normally or with an uncaught exception. *)
Inductive run (S : Type) : Type :=
| Finished (s : S)
| Crashed (s : S) (e : exn).
Arguments Finished {S} s.
Arguments Crashed {S} s e.

Definition newline : string := String (ascii_of_nat 10) EmptyString.

(** ** MAERSK_INC_info_extraction.py *)

Module INC.

(** The columns order of [main] (line 132). *)
Definition cols : list string :=
  ["file_name"; "invoice_date"; "invoice_number"; "bl_number";
   "port_of_loading"; "cy_cfs_destination"; "container_number";
   "gross_weight"; "total_amount"].

(** [extract_from_pdf] (lines 80-97), for the document [filename] of
    [FOLDER_PATH]: the value returned and the lines printed.  Everything
    raised inside its [try] ends in the report and [None]. *)
Definition extract_from_pdf (infer : string -> outcome) (filename : string)
  : json * list effect :=
  match infer filename with
  | Returns v => (v, [])
  | Raises e =>
      (JNull, [Print ("Error processing " ++ filename ++ ": " ++ exn_msg e)])
  end.

(** [if not isinstance(x, list): x = [x]] (lines 146-149). *)
Definition listify (v : json) : list json :=
  match v with JList l => l | _ => [v] end.

(** [while len(gross_weights) < n: gross_weights.append(None)]
    (lines 154-155), with a bound on the number of iterations. *)
Fixpoint pad_while (fuel : nat) (gross_weights : list json) (n : nat)
  : list json :=
  match fuel with
  | 0 => gross_weights
  | S fuel' =>
      if Nat.ltb (List.length gross_weights) n
      then pad_while fuel' (gross_weights ++ [JNull]) n
      else gross_weights
  end.

(** The dict literal of lines 158-168. *)
Definition row (filename : string) (data : dict) (gross_weights : list json)
  (i : nat) (container : json) : dict :=
  [("file_name", JStr filename);
   ("invoice_date", dict_get data "invoice_date");
   ("invoice_number", dict_get data "invoice_number");
   ("bl_number", dict_get data "bl_number");
   ("port_of_loading", dict_get data "port_of_loading");
   ("cy_cfs_destination", dict_get data "cy_cfs_destination");
   ("container_number", container);
   ("gross_weight",
     if Nat.ltb i (List.length gross_weights)
     then nth i gross_weights JNull else JNull);
   ("total_amount", dict_get data "total_amount")].

(** Lines 143-169 of [main]: the rows appended to [results] for one decoded
    record.  (The padding appends to the list held by [data] when that list
    is not empty; [data] is not read under that key again.) *)
Definition expand_rows (filename : string) (data : dict) : list dict :=
  let container_numbers :=
    py_or (dict_get data "container_numbers") (JList [JNull]) in
  let gross_weights := py_or (dict_get data "gross_weights") (JList []) in
  let container_numbers := listify container_numbers in
  let gross_weights := listify gross_weights in
  let container_numbers :=
    if Nat.eqb (List.length container_numbers) 0 then [JNull]
    else container_numbers in
  let gross_weights :=
    pad_while (List.length container_numbers) gross_weights
      (List.length container_numbers) in
  map (fun '(i, container) => row filename data gross_weights i container)
    (enumerate container_numbers).

Record state : Type :=
  State { results : list dict; disk : option file_content; out : list effect }.

Definition say (s : state) (es : list effect) : state :=
  {| results := results s; disk := disk s; out := out s ++ es |}.

(** The incremental save (lines 172-181): the whole of [results] goes to
    the file; anything raised inside the [try], while the frame is built or
    written, is reported and swallowed. *)
Definition save (to_excel : table -> option exn) (s : state) : state :=
  let df := frame_of cols (results s) in
  match to_excel df with
  | None =>
      {| results := results s; disk := Some (Sheet df);
         out := out s ++ [ToExcel df None] |}
  | Some e =>
      say s [ToExcel df (Some e);
             Print (newline ++ "Error saving to Excel: " ++ exn_msg e)]
  end.

(** One turn of the loop of [main] (lines 134-183). *)
Definition process (infer : string -> outcome)
  (to_excel : nat -> table -> option exn)
  (index : nat) (filename : string) (s : state) : run state :=
  let (data, printed) := extract_from_pdf infer filename in
  let s := say s printed in
  if truthy data then
    match data with
    | JObj d =>
        let s :=
          {| results := results s ++ expand_rows filename d;
             disk := disk s; out := out s |} in
        let s := save (to_excel index) s in
        Finished (say s [Sleep 1])
    | _ =>
        Crashed s
          (Exn "AttributeError"
             ("'" ++ type_name data ++ "' object has no attribute 'get'"))
    end
  else Finished (say s [Sleep 1]).

Fixpoint loop (infer : string -> outcome)
  (to_excel : nat -> table -> option exn)
  (work : list (nat * string)) (s : state) : run state :=
  match work with
  | [] => Finished s
  | (index, filename) :: work' =>
      match process infer to_excel index filename s with
      | Finished s' => loop infer to_excel work' s'
      | Crashed s' e => Crashed s' e
      end
  end.

(** Lines 101-112: the rows of an earlier run. *)
Definition load_existing (disk : option file_content) : list dict * list effect :=
  match disk with
  | None => ([], [])
  | Some (Unreadable e) =>
      ([], [Print ("Could not load existing file: " ++ exn_msg e
                   ++ ". Starting fresh.")])
  | Some (Sheet df_existing) =>
      if existsb (String.eqb "filename") (columns df_existing)
      then (to_dict_records df_existing, [])
      else ([], [])
  end.

(** Line 116. *)
Definition processed_files (results : list dict) : list json :=
  flat_map
    (fun r => if dict_contains "file_name" r then [dict_get r "file_name"] else [])
    results.

(** Line 119, over the entries of [FOLDER_PATH]. *)
Definition all_files (listdir : list string) : list string :=
  filter (fun f => endswith (lower f) ".pdf") listdir.

(** Line 122. *)
Definition files_to_process (listdir : list string) (results : list dict)
  : list string :=
  filter (fun f => negb (str_in f (processed_files results)))
    (all_files listdir).

(** [main] (lines 100-185). *)
Definition main (listdir : list string) (infer : string -> outcome)
  (to_excel : nat -> table -> option exn) (disk : option file_content)
  : run state :=
  let (results, printed) := load_existing disk in
  loop infer to_excel (enumerate (files_to_process listdir results))
    {| results := results; disk := disk; out := printed |}.

End INC.

(** ** MAERSK_NA_info_extractor.py *)

Module NA.

(** The columns order of [main] (line 141). *)
Definition cols : list string :=
  ["filename"; "invoice_number"; "invoice_date"; "place_of_receipt";
   "place_of_delivery"; "bl_number"; "container_number"; "pcd";
   "total_payable_amount"].

(** [extract_from_pdf] (lines 90-107). *)
Definition extract_from_pdf (infer : string -> outcome) (filename : string)
  : json * list effect :=
  match infer filename with
  | Returns v => (v, [])
  | Raises e =>
      (JNull, [Print ("Error processing " ++ filename ++ ": " ++ exn_msg e)])
  end.

Record state : Type :=
  State { results : list dict; disk : option file_content; out : list effect }.

Definition say (s : state) (es : list effect) : state :=
  {| results := results s; disk := disk s; out := out s ++ es |}.

(** The incremental save (lines 155-164). *)
Definition save (to_excel : table -> option exn) (s : state) : state :=
  let df := frame_of cols (results s) in
  match to_excel df with
  | None =>
      {| results := results s; disk := Some (Sheet df);
         out := out s ++ [ToExcel df None] |}
  | Some e =>
      say s [ToExcel df (Some e);
             Print (newline ++ "Error saving to Excel: " ++ exn_msg e)]
  end.

(** What [data['filename'] = filename] raises on a value that is no dict. *)
Definition setitem_error (data : json) : exn :=
  match data with
  | JList _ =>
      Exn "TypeError" "list indices must be integers or slices, not str"
  | _ =>
      Exn "TypeError"
        ("'" ++ type_name data ++ "' object does not support item assignment")
  end.

(** One turn of the loop of [main] (lines 143-166). *)
Definition process (infer : string -> outcome)
  (to_excel : nat -> table -> option exn)
  (index : nat) (filename : string) (s : state) : run state :=
  let (data, printed) := extract_from_pdf infer filename in
  let s := say s printed in
  if truthy data then
    match data with
    | JObj d =>
        let d := dict_set "filename" (JStr filename) d in
        let s :=
          {| results := results s ++ [d]; disk := disk s; out := out s |} in
        let s := save (to_excel index) s in
        Finished (say s [Sleep 1])
    | _ => Crashed s (setitem_error data)
    end
  else Finished (say s [Sleep 1]).

Fixpoint loop (infer : string -> outcome)
  (to_excel : nat -> table -> option exn)
  (work : list (nat * string)) (s : state) : run state :=
  match work with
  | [] => Finished s
  | (index, filename) :: work' =>
      match process infer to_excel index filename s with
      | Finished s' => loop infer to_excel work' s'
      | Crashed s' e => Crashed s' e
      end
  end.

(** Lines 111-122. *)
Definition load_existing (disk : option file_content) : list dict * list effect :=
  match disk with
  | None => ([], [])
  | Some (Unreadable e) =>
      ([], [Print ("Could not load existing file: " ++ exn_msg e
                   ++ ". Starting fresh.")])
  | Some (Sheet df_existing) =>
      if existsb (String.eqb "filename") (columns df_existing)
      then (to_dict_records df_existing, [])
      else ([], [])
  end.

(** Line 125. *)
Definition processed_files (results : list dict) : list json :=
  flat_map
    (fun r => if dict_contains "filename" r then [dict_get r "filename"] else [])
    results.

(** Line 128. *)
Definition all_files (listdir : list string) : list string :=
  filter (fun f => endswith (lower f) ".pdf") listdir.

(** Line 131. *)
Definition files_to_process (listdir : list string) (results : list dict)
  : list string :=
  filter (fun f => negb (str_in f (processed_files results)))
    (all_files listdir).

(** [main] (lines 110-168). *)
Definition main (listdir : list string) (infer : string -> outcome)
  (to_excel : nat -> table -> option exn) (disk : option file_content)
  : run state :=
  let (results, printed) := load_existing disk in
  loop infer to_excel (enumerate (files_to_process listdir results))
    {| results := results; disk := disk; out := printed |}.

End NA.

(** ** app.py *)

Module APP.

Definition ALLOWED_EXTENSIONS : list string := ["pdf"].

(** The columns order of [extract] (lines 166-168). *)
Definition cols : list string :=
  ["file_name"; "invoice_date"; "invoice_number"; "bl_number";
   "port_of_loading"; "cy_cfs_destination"; "container_number";
   "gross_weight"; "total_amount"].

(** [allowed_file] (lines 68-69). *)
Definition allowed_file (filename : string) : bool :=
  contains_dot filename
  && existsb (String.eqb (lower (nth 1 (rsplit_dot filename) "")))
       ALLOWED_EXTENSIONS.

(** The uploaded file, the form of a request, and what the handlers answer. *)
Record upload : Type := Upload { filename : string; content : string }.

Record request : Type :=
  Request { api_key : option string; prompt : option string; file : option upload }.

Inductive payload : Type :=
| ErrorJson (error : string)
| ExtractJson (data : list dict) (total_records : nat)
| SuccessJson
| Attachment (c : file_content).

Record response : Type := Response { status : nat; body : payload }.

(** The outside world of one request: the model called with the key, the
    prompt and the document, and the spreadsheet writer. *)
Record world : Type :=
  World { generate_content : string -> string -> string -> outcome;
          to_excel : table -> option exn }.

(** The module state: the global [extraction_results] and the output file. *)
Record state : Type :=
  State { extraction_results : list dict;
          output_file : option file_content;
          out : list effect }.

Definition say (s : state) (es : list effect) : state :=
  {| extraction_results := extraction_results s;
     output_file := output_file s; out := out s ++ es |}.

(** [extract_from_pdf] (lines 71-95): unlike the batch scripts it raises
    again, under a message of its own. *)
Definition extract_from_pdf (w : world) (pdf_content api_key prompt : string)
  : (json + exn) * list effect :=
  match generate_content w api_key prompt pdf_content with
  | Returns v => (inl v, [])
  | Raises e =>
      (inr (Exn "Exception" ("Gemini API Error: " ++ exn_msg e)),
       [Print ("Extraction Error: " ++ exn_msg e)])
  end.

(** [while len(gross_weights) < n: gross_weights.append(None)]
    (lines 143-144), with a bound on the number of iterations. *)
Fixpoint pad_while (fuel : nat) (gross_weights : list json) (n : nat)
  : list json :=
  match fuel with
  | 0 => gross_weights
  | S fuel' =>
      if Nat.ltb (List.length gross_weights) n
      then pad_while fuel' (gross_weights ++ [JNull]) n
      else gross_weights
  end.

(** The dict literal of lines 148-158. *)
Definition row (filename : string) (data : dict) (gross_weights : list json)
  (i : nat) (container : json) : dict :=
  [("file_name", JStr filename);
   ("invoice_date", dict_get data "invoice_date");
   ("invoice_number", dict_get data "invoice_number");
   ("bl_number", dict_get data "bl_number");
   ("port_of_loading", dict_get data "port_of_loading");
   ("cy_cfs_destination", dict_get data "cy_cfs_destination");
   ("container_number", container);
   ("gross_weight",
     if Nat.ltb i (List.length gross_weights)
     then nth i gross_weights JNull else JNull);
   ("total_amount", dict_get data "total_amount")].

(** Lines 127-160 of [extract]: [new_rows] for one decoded record. *)
Definition expand_rows (filename : string) (data : dict) : list dict :=
  let container_numbers := dict_get data "container_numbers" in
  let container_numbers :=
    match container_numbers with
    | JNull => [JNull]
    | JList l => l
    | _ => [container_numbers]
    end in
  let container_numbers :=
    if Nat.eqb (List.length container_numbers) 0 then [JNull]
    else container_numbers in
  let gross_weights := py_or (dict_get data "gross_weights") (JList []) in
  let gross_weights :=
    match gross_weights with JList l => l | _ => [gross_weights] end in
  let gross_weights :=
    pad_while (List.length container_numbers) gross_weights
      (List.length container_numbers) in
  map (fun '(i, container) => row filename data gross_weights i container)
    (enumerate container_numbers).

Section Service.

(** [werkzeug.utils.secure_filename] and the text of [DEFAULT_PROMPT]. *)
Variable secure_filename : string -> string.
Variable DEFAULT_PROMPT : string.

(** [extract] (lines 101-183). *)
Definition extract (w : world) (req : request) (s : state) : response * state :=
  match api_key req with
  | None => (Response 400 (ErrorJson "API key is required"), s)
  | Some key =>
      if String.eqb key "" then
        (Response 400 (ErrorJson "API key is required"), s)
      else
        match file req with
        | None => (Response 400 (ErrorJson "No file uploaded"), s)
        | Some f =>
            if String.eqb (filename f) "" || negb (allowed_file (filename f))
            then (Response 400 (ErrorJson "Invalid file"), s)
            else
              let pdf_content := content f in
              let name := secure_filename (filename f) in
              let prompt :=
                match prompt req with Some p => p | None => DEFAULT_PROMPT end in
              match extract_from_pdf w pdf_content key prompt with
              | (inr e, printed) =>
                  (Response 500 (ErrorJson (exn_msg e)), say s printed)
              | (inl (JObj d), printed) =>
                  let s := say s printed in
                  let new_rows := expand_rows name d in
                  let results := (extraction_results s ++ new_rows)%list in
                  let ok :=
                    Response 200 (ExtractJson new_rows (List.length results)) in
                  match results with
                  | [] =>
                      (ok, {| extraction_results := results;
                              output_file := output_file s; out := out s |})
                  | _ :: _ =>
                      let df := frame_of cols results in
                      match to_excel w df with
                      | None =>
                          (ok, {| extraction_results := results;
                                  output_file := Some (Sheet df);
                                  out := out s ++ [ToExcel df None] |})
                      | Some e =>
                          (Response 500 (ErrorJson (exn_msg e)),
                           {| extraction_results := results;
                              output_file := output_file s;
                              out := out s ++ [ToExcel df (Some e)] |})
                      end
                  end
              | (inl data, printed) =>
                  (Response 500
                     (ErrorJson
                        ("'" ++ type_name data
                         ++ "' object has no attribute 'get'")),
                   say s printed)
              end
        end
  end.

(** [download] (lines 185-189). *)
Definition download (s : state) : response :=
  match output_file s with
  | Some c => Response 200 (Attachment c)
  | None => Response 404 (ErrorJson "No results to download")
  end.

(** [clear_results] (lines 191-197). *)
Definition clear_results (s : state) : response * state :=
  (Response 200 SuccessJson,
   {| extraction_results := []; output_file := None; out := out s |}).

End Service.

End APP.

(** ** Vocabulary of the statements *)

(** The scalar fields of a record, copied into every row. *)
Definition scalar_fields : list string :=
  ["invoice_date"; "invoice_number"; "bl_number"; "port_of_loading";
   "cy_cfs_destination"; "total_amount"].

(** The state a run ended in, crashed or not. *)
Definition final {S : Type} (r : run S) : S :=
  match r with Finished s => s | Crashed s _ => s end.

(** The tables handed to [to_excel] along a trace, oldest first. *)
Definition attempts (es : list effect) : list table :=
  flat_map (fun e => match e with ToExcel t _ => [t] | _ => [] end) es.

(** A weight list right-padded with [None] up to [n] entries. *)
Definition padded (ws : list json) (n : nat) : list json :=
  (ws ++ repeat JNull (n - List.length ws))%list.

(** The cell of a row of a table under the column [k]. *)
Definition cell (t : table) (row : list json) (k : string) : option json :=
  dict_lookup k (combine (columns t) row).

(** A table laid out on the columns [cols]: these columns in this order,
    and one cell per column in every row. *)
Definition laid_out (cols : list string) (t : table) : Prop :=
  columns t = cols
  /\ Forall (fun row => List.length row = List.length cols) (cells t).

(** The specified behaviour that a turn of the loop of MAERSK_INC ends with
    a rewrite of the whole table: among the effects added by the turn there
    is a [to_excel] of the frame of all rows now in memory. *)
Definition rewrites_table_after (infer : string -> outcome)
  (to_excel : nat -> table -> option exn)
  (index : nat) (filename : string) (s : INC.state) : Prop :=
  let s' := final (INC.process infer to_excel index filename s) in
  In (frame_of INC.cols (INC.results s'))
    (attempts (skipn (List.length (INC.out s)) (INC.out s'))).



(** Resume as the specification states it, for a first run that starts without a
    file and a second run started from the file the first one leaves: the
    second run has nothing pending and leaves the file as it found it. *)
Definition INC_resume_idempotent (listdir : list string)
  (infer : string -> outcome) : Prop :=
  let s1 := final (INC.main listdir infer (fun _ _ => None) None) in
  let s2 := final (INC.main listdir infer (fun _ _ => None) (INC.disk s1)) in
  INC.files_to_process listdir (fst (INC.load_existing (INC.disk s1))) = []
  /\ INC.disk s2 = INC.disk s1.

Definition NA_resume_idempotent (listdir : list string)
  (infer : string -> outcome) : Prop :=
  let s1 := final (NA.main listdir infer (fun _ _ => None) None) in
  let s2 := final (NA.main listdir infer (fun _ _ => None) (NA.disk s1)) in
  NA.files_to_process listdir (fst (NA.load_existing (NA.disk s1))) = []
  /\ NA.disk s2 = NA.disk s1.

(** A request that passes the checks of [extract]: a non-empty key and an
    uploaded file with an allowed name. *)
Definition accepted (req : APP.request) (key : string) (f : APP.upload) : Prop :=
  APP.api_key req = Some key /\ key <> ""
  /\ APP.file req = Some f /\ APP.filename f <> ""
  /\ APP.allowed_file (APP.filename f) = true.

(** The answer of the model to an accepted request. *)
Definition answer (DEFAULT_PROMPT : string) (w : APP.world)
  (req : APP.request) (key : string) (f : APP.upload) : outcome :=
  APP.generate_content w key
    (match APP.prompt req with Some p => p | None => DEFAULT_PROMPT end)
    (APP.content f).

(** The seconds slept along a trace. *)
Definition slept (es : list effect) : nat :=
  list_sum (map (fun e => match e with Sleep n => n | _ => 0 end) es).

(** * Properties *)

(** ** Python helpers *)

Lemma nth_error_enumerate {A : Type} (l : list A) (i : nat) :
  nth_error (enumerate l) i = option_map (pair i) (nth_error l i).
Proof.
  unfold enumerate.
  assert (G : forall (l : list A) (s i : nat),
             nth_error (combine (seq s (List.length l)) l) i
             = option_map (pair (s + i)) (nth_error l i)).
  { clear. induction l as [|a l IH]; intros s i.
    - destruct i; reflexivity.
    - destruct i; simpl.
      + now rewrite Nat.add_0_r.
      + rewrite IH. now rewrite Nat.add_succ_r. }
  apply (G l 0 i).
Qed.

Lemma length_enumerate {A : Type} (l : list A) :
  List.length (enumerate l) = List.length l.
Proof.
  unfold enumerate. rewrite length_combine, length_seq. apply Nat.min_id.
Qed.

Lemma dict_get_lookup (d : dict) (k : string) (v : json) :
  dict_lookup k d = Some v -> dict_get d k = v.
Proof. unfold dict_get. now intros ->. Qed.

Lemma dict_get_missing (d : dict) (k : string) :
  dict_lookup k d = None -> dict_get d k = JNull.
Proof. unfold dict_get. now intros ->. Qed.

(** ** The padding loop *)

Lemma INC_pad_while_spec (fuel : nat) (gw : list json) (n : nat) :
  n - List.length gw <= fuel ->
  INC.pad_while fuel gw n = (gw ++ repeat JNull (n - List.length gw))%list.
Proof.
  revert gw. induction fuel as [|fuel IH]; intros gw Hfuel; simpl.
  - replace (n - List.length gw) with 0 by lia. simpl. now rewrite app_nil_r.
  - destruct (Nat.ltb_spec (List.length gw) n) as [Hlt|Hge].
    + rewrite IH by (rewrite length_app; simpl; lia).
      rewrite length_app. simpl.
      replace (n - List.length gw) with (S (n - (List.length gw + 1))) by lia.
      simpl. now rewrite <- app_assoc.
    + replace (n - List.length gw) with 0 by lia. simpl. now rewrite app_nil_r.
Qed.

(** With the fuel the programs give it, the loop leaves by its test. *)
Lemma INC_pad_while_exits (gw : list json) (n : nat) :
  ~ List.length (INC.pad_while n gw n) < n.
Proof.
  rewrite INC_pad_while_spec by lia. rewrite length_app, repeat_length. lia.
Qed.

Lemma APP_pad_while_spec (fuel : nat) (gw : list json) (n : nat) :
  n - List.length gw <= fuel ->
  APP.pad_while fuel gw n = (gw ++ repeat JNull (n - List.length gw))%list.
Proof.
  revert gw. induction fuel as [|fuel IH]; intros gw Hfuel; simpl.
  - replace (n - List.length gw) with 0 by lia. simpl. now rewrite app_nil_r.
  - destruct (Nat.ltb_spec (List.length gw) n) as [Hlt|Hge].
    + rewrite IH by (rewrite length_app; simpl; lia).
      rewrite length_app. simpl.
      replace (n - List.length gw) with (S (n - (List.length gw + 1))) by lia.
      simpl. now rewrite <- app_assoc.
    + replace (n - List.length gw) with 0 by lia. simpl. now rewrite app_nil_r.
Qed.

Lemma APP_pad_while_exits (gw : list json) (n : nat) :
  ~ List.length (APP.pad_while n gw n) < n.
Proof.
  rewrite APP_pad_while_spec by lia. rewrite length_app, repeat_length. lia.
Qed.

(** ** Normal forms of the row expansion *)

Lemma nth_error_rows {A : Type} (f : nat -> json -> A) (l : list json) (i : nat) :
  nth_error (map (fun '(i, c) => f i c) (enumerate l)) i
  = option_map (f i) (nth_error l i).
Proof.
  rewrite nth_error_map, nth_error_enumerate.
  now destruct (nth_error l i).
Qed.

Lemma length_rows {A : Type} (f : nat -> json -> A) (l : list json) :
  List.length (map (fun '(i, c) => f i c) (enumerate l)) = List.length l.
Proof. now rewrite length_map, length_enumerate. Qed.

Lemma INC_expand_rows_lists (filename : string) (data : dict) (cs ws : list json) :
  dict_get data "container_numbers" = JList cs ->
  cs <> [] ->
  dict_get data "gross_weights" = JList ws ->
  INC.expand_rows filename data
  = map (fun '(i, c) => INC.row filename data (padded ws (List.length cs)) i c)
      (enumerate cs).
Proof.
  intros Hc Hne Hw. unfold INC.expand_rows. rewrite Hc, Hw.
  destruct cs as [|c cs]; [congruence|].
  assert (Hgw : INC.listify (py_or (JList ws) (JList [])) = ws)
    by now destruct ws.
  rewrite Hgw.
  change (INC.listify (py_or (JList (c :: cs)) (JList [JNull]))) with (c :: cs).
  change (Nat.eqb (List.length (c :: cs)) 0) with false. cbv iota.
  now rewrite INC_pad_while_spec by lia.
Qed.

Lemma APP_expand_rows_lists (filename : string) (data : dict) (cs ws : list json) :
  dict_get data "container_numbers" = JList cs ->
  cs <> [] ->
  dict_get data "gross_weights" = JList ws ->
  APP.expand_rows filename data
  = map (fun '(i, c) => APP.row filename data (padded ws (List.length cs)) i c)
      (enumerate cs).
Proof.
  intros Hc Hne Hw. unfold APP.expand_rows. rewrite Hc, Hw.
  destruct cs as [|c cs]; [congruence|].
  assert (Hgw : match py_or (JList ws) (JList []) with
                | JList l => l
                | _ => [py_or (JList ws) (JList [])]
                end = ws) by now destruct ws.
  rewrite Hgw.
  change (Nat.eqb (List.length (c :: cs)) 0) with false. cbv iota.
  now rewrite APP_pad_while_spec by lia.
Qed.

Lemma nth_padded (ws : list json) (n i : nat) :
  nth i (padded ws n) JNull = nth i ws JNull.
Proof.
  unfold padded. destruct (Nat.lt_ge_cases i (List.length ws)) as [Hlt|Hge].
  - now rewrite app_nth1.
  - rewrite app_nth2 by lia. rewrite nth_repeat.
    now rewrite (nth_overflow ws) by lia.
Qed.

(** ** Row normalization *)

(** What a row says about the document [filename], the record [data], the
    [i]-th container of [cs] and the [i]-th weight of [ws]. *)
Lemma row_weight_in_range (gw : list json) (i : nat) :
  (if Nat.ltb i (List.length gw) then nth i gw JNull else JNull) = nth i gw JNull.
Proof.
  destruct (Nat.ltb_spec i (List.length gw)); [reflexivity|].
  now rewrite nth_overflow.
Qed.

Lemma nth_nth_error (l : list json) (i : nat) :
  i < List.length l -> nth_error l i = Some (nth i l JNull).
Proof. intros H. now apply nth_error_nth'. Qed.

Lemma INC_row_fields (filename : string) (data : dict) (gw : list json)
  (i : nat) (c : json) :
  let r := INC.row filename data gw i c in
  dict_lookup "file_name" r = Some (JStr filename)
  /\ dict_lookup "container_number" r = Some c
  /\ dict_lookup "gross_weight" r = Some (nth i gw JNull)
  /\ Forall (fun k => dict_lookup k r = Some (dict_get data k)) scalar_fields.
Proof.
  intros r. repeat split.
  - change (dict_lookup "gross_weight" r)
      with (Some (if Nat.ltb i (List.length gw) then nth i gw JNull else JNull)).
    now rewrite row_weight_in_range.
  - unfold scalar_fields. repeat constructor.
Qed.

(** C1. A record with N containers and M < N weights, both lists, is
    expanded into exactly N rows, by the batch script and by the service
    alike; row i holds the i-th container, the i-th weight when i < M and
    an explicit null weight when i >= M, the document name, and every
    scalar field of the record unchanged. *)
Theorem C1_short_weights_padded_with_null :
  forall (filename : string) (data : dict) (cs ws : list json),
    dict_lookup "container_numbers" data = Some (JList cs) ->
    dict_lookup "gross_weights" data = Some (JList ws) ->
    List.length ws < List.length cs ->
    forall rows : list dict,
      rows = INC.expand_rows filename data
      \/ rows = APP.expand_rows filename data ->
      List.length rows = List.length cs
      /\ forall i : nat,
          i < List.length cs ->
          exists r : dict,
            nth_error rows i = Some r
            /\ dict_lookup "file_name" r = Some (JStr filename)
            /\ dict_lookup "container_number" r = nth_error cs i
            /\ (i < List.length ws ->
                dict_lookup "gross_weight" r = nth_error ws i)
            /\ (List.length ws <= i ->
                dict_lookup "gross_weight" r = Some JNull)
            /\ Forall (fun k => dict_lookup k r = Some (dict_get data k))
                 scalar_fields.
Proof.
  intros filename data cs ws Hc Hw Hlt rows Hrows.
  apply dict_get_lookup in Hc, Hw.
  assert (Hne : cs <> []) by (destruct cs; simpl in Hlt; [lia|congruence]).
  assert (Hform :
    exists row_of : nat -> json -> dict,
      rows = map (fun '(i, c) => row_of i c) (enumerate cs)
      /\ forall i c,
          row_of i c = INC.row filename data (padded ws (List.length cs)) i c).
  { destruct Hrows as [-> | ->].
    - exists (INC.row filename data (padded ws (List.length cs))). split.
      + now apply INC_expand_rows_lists.
      + reflexivity.
    - exists (APP.row filename data (padded ws (List.length cs))). split.
      + now apply APP_expand_rows_lists.
      + reflexivity. }
  destruct Hform as (row_of & -> & Hrow). split.
  - apply length_rows.
  - intros i Hi. exists (row_of i (nth i cs JNull)).
    rewrite nth_error_rows, (nth_nth_error cs i Hi). split; [reflexivity|].
    rewrite Hrow.
    destruct (INC_row_fields filename data (padded ws (List.length cs)) i
                (nth i cs JNull)) as (Hf & Hcn & Hgw & Hsc).
    rewrite nth_padded in Hgw. repeat split; try assumption.
    + intros HiM. now rewrite (nth_nth_error ws i HiM).
    + intros HiM. rewrite (nth_overflow ws JNull HiM) in Hgw. exact Hgw.
Qed.

(** C1, at the record of the specification's example. *)
Lemma C1_short_weights_padded_with_null_witness :
  let data :=
    [("container_numbers", JList [JStr "BMOU1441213"; JStr "MSKU9876543"]);
     ("gross_weights", JList [JFloat 7678.25%float]);
     ("total_amount", JFloat 1341%float)] in
  List.length (INC.expand_rows "a.pdf" data) = 2
  /\ forall i : nat,
      i < 2 ->
      exists r : dict,
        nth_error (INC.expand_rows "a.pdf" data) i = Some r
        /\ dict_lookup "file_name" r = Some (JStr "a.pdf")
        /\ dict_lookup "container_number" r
           = nth_error [JStr "BMOU1441213"; JStr "MSKU9876543"] i
        /\ (i < 1 ->
            dict_lookup "gross_weight" r = nth_error [JFloat 7678.25%float] i)
        /\ (1 <= i -> dict_lookup "gross_weight" r = Some JNull)
        /\ Forall (fun k => dict_lookup k r = Some (dict_get data k))
             scalar_fields.
Proof.
  intros data.
  apply (C1_short_weights_padded_with_null "a.pdf" data
           [JStr "BMOU1441213"; JStr "MSKU9876543"] [JFloat 7678.25%float]).
  - reflexivity.
  - reflexivity.
  - simpl. lia.
  - left. reflexivity.
Defined.

(** A record without containers gives the single row of a null container. *)
Lemma INC_expand_rows_no_container (filename : string) (data : dict) :
  dict_get data "container_numbers" = JNull
  \/ dict_get data "container_numbers" = JList [] ->
  exists gw : list json,
    INC.expand_rows filename data = [INC.row filename data gw 0 JNull].
Proof.
  intros H. unfold INC.expand_rows.
  assert (Hcn : INC.listify
                  (py_or (dict_get data "container_numbers") (JList [JNull]))
                = [JNull]) by (destruct H as [-> | ->]; reflexivity).
  rewrite Hcn.
  change (Nat.eqb (List.length [JNull]) 0) with false. cbv iota.
  now eexists.
Qed.

Lemma APP_expand_rows_no_container (filename : string) (data : dict) :
  dict_get data "container_numbers" = JNull
  \/ dict_get data "container_numbers" = JList [] ->
  exists gw : list json,
    APP.expand_rows filename data = [APP.row filename data gw 0 JNull].
Proof.
  intros H. unfold APP.expand_rows.
  destruct H as [-> | ->]; cbv iota;
    change (Nat.eqb (List.length [JNull]) 0) with false;
    change (Nat.eqb (List.length (@nil json)) 0) with true; cbv iota;
    now eexists.
Qed.

(** C5. A record whose [container_numbers] is missing, null or the empty
    list is expanded into exactly one row, whose container column holds an
    explicit null; so in the batch script and in the service. *)
Theorem C5_no_container_one_null_row :
  forall (filename : string) (data : dict),
    dict_lookup "container_numbers" data = None
    \/ dict_lookup "container_numbers" data = Some JNull
    \/ dict_lookup "container_numbers" data = Some (JList []) ->
    forall rows : list dict,
      rows = INC.expand_rows filename data
      \/ rows = APP.expand_rows filename data ->
      exists r : dict,
        rows = [r] /\ dict_lookup "container_number" r = Some JNull.
Proof.
  intros filename data H rows Hrows.
  assert (Hget : dict_get data "container_numbers" = JNull
                 \/ dict_get data "container_numbers" = JList []).
  { destruct H as [H | [H | H]].
    - left. now apply dict_get_missing.
    - left. now apply dict_get_lookup.
    - right. now apply dict_get_lookup. }
  destruct Hrows as [-> | ->].
  - destruct (INC_expand_rows_no_container filename data Hget) as (gw & ->).
    eexists. split; reflexivity.
  - destruct (APP_expand_rows_no_container filename data Hget) as (gw & ->).
    eexists. split; reflexivity.
Qed.

(** C5, at a record that names an invoice and no container. *)
Lemma C5_no_container_one_null_row_witness :
  exists r : dict,
    APP.expand_rows "a.pdf" [("invoice_number", JStr "202057121")] = [r]
    /\ dict_lookup "container_number" r = Some JNull.
Proof.
  apply (C5_no_container_one_null_row "a.pdf"
           [("invoice_number", JStr "202057121")]).
  - left. reflexivity.
  - right. reflexivity.
Defined.

(** ** One turn of the batch loop (MAERSK_INC) *)

Section INC_turn.

Variable infer : string -> outcome.
Variable to_excel : nat -> table -> option exn.

(** The extraction failed: a report, no row, no write. *)
Lemma INC_process_raises (index : nat) (filename : string) (s : INC.state) (e : exn) :
  infer filename = Raises e ->
  INC.process infer to_excel index filename s
  = Finished
      {| INC.results := INC.results s; INC.disk := INC.disk s;
         INC.out :=
           INC.out s
           ++ [Print ("Error processing " ++ filename ++ ": " ++ exn_msg e);
               Sleep 1] |}.
Proof.
  intros H. unfold INC.process, INC.extract_from_pdf. rewrite H.
  unfold INC.say. cbn. now rewrite <- app_assoc.
Qed.

(** The decoded value is falsy ([None], [{}], [[]], [0], ...): nothing but
    the sleep. *)
Lemma INC_process_falsy (index : nat) (filename : string) (s : INC.state) (v : json) :
  infer filename = Returns v ->
  truthy v = false ->
  INC.process infer to_excel index filename s
  = Finished
      {| INC.results := INC.results s; INC.disk := INC.disk s;
         INC.out := INC.out s ++ [Sleep 1] |}.
Proof.
  intros H Hv. unfold INC.process, INC.extract_from_pdf. rewrite H, Hv.
  unfold INC.say. cbn. now rewrite app_nil_r.
Qed.

(** A record with at least one key: its rows are appended and the whole of
    [results] is handed to [to_excel]. *)
Lemma INC_process_record (index : nat) (filename : string) (s : INC.state) (d : dict) :
  infer filename = Returns (JObj d) ->
  d <> [] ->
  INC.process infer to_excel index filename s
  = Finished
      (INC.say
         (INC.save (to_excel index)
            {| INC.results := INC.results s ++ INC.expand_rows filename d;
               INC.disk := INC.disk s; INC.out := INC.out s |})
         [Sleep 1]).
Proof.
  intros H Hd. unfold INC.process, INC.extract_from_pdf. rewrite H.
  destruct d as [|kv d]; [congruence|].
  unfold INC.say at 2 3 4. cbn [truthy INC.results INC.disk INC.out].
  now rewrite app_nil_r.
Qed.

(** A truthy value that is no dict: [data.get] raises out of [main]. *)
Lemma INC_process_crash (index : nat) (filename : string) (s : INC.state) (v : json) :
  infer filename = Returns v ->
  truthy v = true ->
  (forall d, v <> JObj d) ->
  INC.process infer to_excel index filename s
  = Crashed
      {| INC.results := INC.results s; INC.disk := INC.disk s;
         INC.out := INC.out s |}
      (Exn "AttributeError"
         ("'" ++ type_name v ++ "' object has no attribute 'get'")).
Proof.
  intros H Hv Hd. unfold INC.process, INC.extract_from_pdf. rewrite H, Hv.
  unfold INC.say. cbn. rewrite app_nil_r.
  destruct v; try reflexivity. now destruct (Hd kv).
Qed.

(** The four cases cover every answer of the collaborator. *)
Lemma INC_process_cases (filename : string) :
  (exists e, infer filename = Raises e)
  \/ (exists v, infer filename = Returns v /\ truthy v = false)
  \/ (exists d, infer filename = Returns (JObj d) /\ d <> [])
  \/ (exists v, infer filename = Returns v /\ truthy v = true
                /\ forall d, v <> JObj d).
Proof.
  destruct (infer filename) as [e|v] eqn:E.
  - left. now exists e.
  - right. destruct (truthy v) eqn:Hv.
    + right. destruct v; try (right; eexists; repeat split; eauto; discriminate).
      left. exists kv. split; [reflexivity|]. now destruct kv.
    + left. now exists v.
Qed.

End INC_turn.

(** ** Traces and frames *)

Lemma attempts_app (a b : list effect) :
  attempts (a ++ b) = (attempts a ++ attempts b)%list.
Proof. apply flat_map_app. Qed.

Lemma frame_of_laid_out (cols : list string) (results : list dict) :
  laid_out cols (frame_of cols results).
Proof.
  split; [reflexivity|]. cbn. apply Forall_forall. intros row Hin.
  apply in_map_iff in Hin. destruct Hin as (r & <- & _). apply length_map.
Qed.

Lemma cell_frame_of (cols : list string) (r : dict) (k : string) :
  In k cols ->
  dict_lookup k (combine cols (map (dict_get r) cols)) = Some (dict_get r k).
Proof.
  induction cols as [|c cols IH]; intros Hin; [destruct Hin|].
  cbn. destruct (String.eqb_spec c k) as [->|Hne]; [reflexivity|].
  apply IH. destruct Hin; [congruence|assumption].
Qed.

(** ** The loop of MAERSK_INC *)

Section INC_loop.

Variable infer : string -> outcome.
Variable to_excel : nat -> table -> option exn.

(** What every turn preserves, the whole loop preserves. *)
Lemma INC_loop_preserves (P : INC.state -> Prop) :
  (forall index filename s,
      P s -> P (final (INC.process infer to_excel index filename s))) ->
  forall work s, P s -> P (final (INC.loop infer to_excel work s)).
Proof.
  intros Hstep work. induction work as [|[index filename] work IH]; intros s Hs.
  - exact Hs.
  - cbn. specialize (Hstep index filename s Hs).
    destruct (INC.process infer to_excel index filename s) as [s'|s' e].
    + apply IH. exact Hstep.
    + exact Hstep.
Qed.

(** The fields of the state after a save. *)
Lemma INC_save_results (w : table -> option exn) (s : INC.state) :
  INC.results (INC.save w s) = INC.results s.
Proof. unfold INC.save. now destruct (w _). Qed.

Lemma INC_save_attempts (w : table -> option exn) (s : INC.state) :
  attempts (INC.out (INC.save w s))
  = (attempts (INC.out s) ++ [frame_of INC.cols (INC.results s)])%list.
Proof.
  unfold INC.save. destruct (w _); cbn; now rewrite attempts_app.
Qed.

Lemma INC_save_disk (w : table -> option exn) (s : INC.state) :
  INC.disk (INC.save w s)
  = match w (frame_of INC.cols (INC.results s)) with
    | None => Some (Sheet (frame_of INC.cols (INC.results s)))
    | Some _ => INC.disk s
    end.
Proof. unfold INC.save. now destruct (w _). Qed.

(** A turn never drops a row, and what it hands to [to_excel] is the frame
    of the rows it then holds. *)
Lemma INC_process_summary (index : nat) (filename : string) (s : INC.state) :
  let s' := final (INC.process infer to_excel index filename s) in
  (exists rows, INC.results s' = (INC.results s ++ rows)%list
                /\ Forall (fun r => dict_lookup "file_name" r = Some (JStr filename)) rows
                /\ (rows <> [] -> exists d, infer filename = Returns (JObj d)))
  /\ (attempts (INC.out s') = attempts (INC.out s)
      /\ INC.disk s' = INC.disk s
      \/ attempts (INC.out s')
         = (attempts (INC.out s) ++ [frame_of INC.cols (INC.results s')])%list
         /\ (INC.disk s' = INC.disk s
             \/ INC.disk s' = Some (Sheet (frame_of INC.cols (INC.results s'))))).
Proof.
  destruct (INC_process_cases infer filename)
    as [(e & H) | [(v & H & Hv) | [(d & H & Hd) | (v & H & Hv & Hn)]]].
  - rewrite (INC_process_raises infer to_excel index filename s e H). cbn. split.
    + exists []. rewrite app_nil_r. repeat split; [constructor|congruence].
    + left. split; [|reflexivity]. rewrite attempts_app. cbn. apply app_nil_r.
  - rewrite (INC_process_falsy infer to_excel index filename s v H Hv). cbn. split.
    + exists []. rewrite app_nil_r. repeat split; [constructor|congruence].
    + left. split; [|reflexivity]. rewrite attempts_app. cbn. apply app_nil_r.
  - rewrite (INC_process_record infer to_excel index filename s d H Hd).
    cbn [final INC.say INC.results INC.disk INC.out].
    rewrite INC_save_results, INC_save_disk, attempts_app, INC_save_attempts.
    cbn [INC.results INC.disk INC.out]. split.
    + exists (INC.expand_rows filename d). repeat split.
      * unfold INC.expand_rows. apply Forall_forall. intros r Hin.
        apply in_map_iff in Hin. destruct Hin as ([i c] & <- & _). reflexivity.
      * intros _. now exists d.
    + right. split.
      * cbn. now rewrite app_nil_r.
      * destruct (to_excel index _); [left|right]; reflexivity.
  - rewrite (INC_process_crash infer to_excel index filename s v H Hv Hn). cbn. split.
    + exists []. rewrite app_nil_r. repeat split; [constructor|congruence].
    + left. split; reflexivity.
Qed.

End INC_loop.

(** ** The batch driver against its specification *)

(** C3. In MAERSK_INC a document whose extraction succeeds with the empty
    record [{}] is passed over: [if data:] is false for an empty dict, so
    the turn appends no row and writes nothing (the specification asks for
    one row of nulls). *)
Theorem C3_inc_empty_record_adds_no_row :
  forall (infer : string -> outcome) (to_excel : nat -> table -> option exn)
         (index : nat) (filename : string) (s : INC.state),
    infer filename = Returns (JObj []) ->
    INC.process infer to_excel index filename s
    = Finished
        {| INC.results := INC.results s; INC.disk := INC.disk s;
           INC.out := INC.out s ++ [Sleep 1] |}.
Proof.
  intros infer to_excel index filename s H.
  now apply (INC_process_falsy infer to_excel index filename s (JObj [])).
Qed.

Lemma C3_inc_empty_record_adds_no_row_witness :
  INC.process (fun _ => Returns (JObj [])) (fun _ _ => None) 0 "a.pdf"
    (INC.State [] None [])
  = Finished (INC.State [] None [Sleep 1]).
Proof.
  apply (C3_inc_empty_record_adds_no_row
           (fun _ => Returns (JObj [])) (fun _ _ => None) 0 "a.pdf"
           (INC.State [] None [])).
  reflexivity.
Defined.

(** C4, refuted as stated: a document whose extraction fails ends its turn
    without any rewrite of the table. *)
Lemma C4_no_rewrite_after_failed_document :
  ~ rewrites_table_after
      (fun _ => Raises (Exn "DeadlineExceeded" "504 Deadline Exceeded"))
      (fun _ _ => None) 0 "x.pdf" (INC.State [] None []).
Proof. unfold rewrites_table_after. cbn. intros []. Qed.

(** C4, amended. After a document whose extraction returns a record with at
    least one key, the turn hands the frame of all rows in memory (the old
    ones and the new ones) to [to_excel], and only then sleeps and moves on;
    after a document whose extraction failed, the turn attempts no write
    and leaves rows and file as they were. *)
Theorem C4_rewrite_after_each_extracted_record :
  forall (infer : string -> outcome) (to_excel : nat -> table -> option exn)
         (index : nat) (filename : string) (s : INC.state),
    (forall d : dict,
        infer filename = Returns (JObj d) ->
        d <> [] ->
        exists (s' : INC.state) (report : list effect),
          INC.process infer to_excel index filename s = Finished s'
          /\ INC.results s' = (INC.results s ++ INC.expand_rows filename d)%list
          /\ INC.out s'
             = (INC.out s
                ++ ToExcel (frame_of INC.cols (INC.results s'))
                     (to_excel index (frame_of INC.cols (INC.results s')))
                   :: report ++ [Sleep 1])%list
          /\ attempts report = [])
    /\ (forall e : exn,
          infer filename = Raises e ->
          exists s' : INC.state,
            INC.process infer to_excel index filename s = Finished s'
            /\ INC.results s' = INC.results s
            /\ INC.disk s' = INC.disk s
            /\ attempts (INC.out s') = attempts (INC.out s)).
Proof.
  intros infer to_excel index filename s. split.
  - intros d H Hd.
    rewrite (INC_process_record infer to_excel index filename s d H Hd).
    unfold INC.save. cbn [INC.results INC.disk INC.out].
    destruct (to_excel index
                (frame_of INC.cols (INC.results s ++ INC.expand_rows filename d)))
      as [e|] eqn:E.
    + eexists. exists [Print (newline ++ "Error saving to Excel: " ++ exn_msg e)].
      split; [reflexivity|]. cbn [INC.say INC.results INC.disk INC.out].
      rewrite E. repeat split. now rewrite <- app_assoc.
    + eexists. exists []. split; [reflexivity|].
      cbn [INC.say INC.results INC.disk INC.out].
      rewrite E. repeat split. now rewrite <- app_assoc.
  - intros e H.
    rewrite (INC_process_raises infer to_excel index filename s e H).
    eexists. split; [reflexivity|]. cbn. repeat split.
    rewrite attempts_app. cbn. apply app_nil_r.
Qed.

Lemma C4_rewrite_after_each_extracted_record_witness :
  exists (s' : INC.state) (report : list effect),
    INC.process (fun _ => Returns (JObj [("invoice_number", JStr "202057121")]))
      (fun _ _ => None) 0 "a.pdf" (INC.State [] None [])
    = Finished s'
    /\ INC.results s'
       = INC.expand_rows "a.pdf" [("invoice_number", JStr "202057121")]
    /\ INC.out s'
       = ToExcel (frame_of INC.cols (INC.results s')) None
           :: (report ++ [Sleep 1])%list
    /\ attempts report = [].
Proof.
  apply (proj1 (C4_rewrite_after_each_extracted_record
                  (fun _ => Returns (JObj [("invoice_number", JStr "202057121")]))
                  (fun _ _ => None) 0 "a.pdf" (INC.State [] None []))
           [("invoice_number", JStr "202057121")]).
  - reflexivity.
  - discriminate.
Defined.

(** ** Resume bookkeeping of MAERSK_INC *)


Lemma str_in_app (x : string) (a b : list json) :
  str_in x (a ++ b) = str_in x a || str_in x b.
Proof. apply existsb_app. Qed.


(** A sheet written by MAERSK_INC has no [filename] column, so the next run
    loads no row from it. *)
Lemma INC_load_own_sheet (rs : list dict) :
  INC.load_existing (Some (Sheet (frame_of INC.cols rs))) = ([], []).
Proof. reflexivity. Qed.

Lemma INC_files_to_process_fresh (listdir : list string) :
  INC.files_to_process listdir [] = INC.all_files listdir.
Proof.
  unfold INC.files_to_process. cbn.
  induction (INC.all_files listdir) as [|f l IH]; [reflexivity|].
  cbn. now rewrite IH.
Qed.

Section INC_runs.

Variable infer : string -> outcome.
Variable to_excel : nat -> table -> option exn.


(** Every table the loop hands to [to_excel] is laid out on [cols]. *)
Lemma INC_loop_attempts (work : list (nat * string)) (s : INC.state) :
  Forall (laid_out INC.cols) (attempts (INC.out s)) ->
  Forall (laid_out INC.cols)
    (attempts (INC.out (final (INC.loop infer to_excel work s)))).
Proof.
  apply (INC_loop_preserves infer to_excel
           (fun s' => Forall (laid_out INC.cols) (attempts (INC.out s')))).
  intros index filename s0 Hs0.
  destruct (INC_process_summary infer to_excel index filename s0)
    as (_ & [(Ha & _) | (Ha & _)]); rewrite Ha; [exact Hs0|].
  apply Forall_app. split; [exact Hs0|].
  constructor; [apply frame_of_laid_out|constructor].
Qed.


End INC_runs.

Lemma INC_load_existing_prints (disk : option file_content) :
  attempts (snd (INC.load_existing disk)) = [].
Proof.
  destruct disk as [[e|t]|]; cbn; try reflexivity.
  now destruct (existsb _ _).
Qed.

(** ** The service handler and its writes *)

Lemma APP_extract_attempts (secure_filename : string -> string)
  (DEFAULT_PROMPT : string) (w : APP.world) (req : APP.request) (s : APP.state) :
  let s' := snd (APP.extract secure_filename DEFAULT_PROMPT w req s) in
  attempts (APP.out s') = attempts (APP.out s)
  \/ attempts (APP.out s')
     = (attempts (APP.out s)
        ++ [frame_of APP.cols (APP.extraction_results s')])%list.
Proof.
  unfold APP.extract.
  destruct (APP.api_key req) as [key|]; [|now left].
  destruct (String.eqb key ""); [now left|].
  destruct (APP.file req) as [f|]; [|now left].
  destruct (String.eqb (APP.filename f) "" || negb (APP.allowed_file (APP.filename f)));
    [now left|].
  unfold APP.extract_from_pdf.
  destruct (APP.generate_content w key _ (APP.content f)) as [e|v].
  - left. cbn. rewrite attempts_app. cbn. apply app_nil_r.
  - assert (Hnil : forall x : list effect, attempts (x ++ []) = attempts x)
      by (intros x; now rewrite app_nil_r).
    destruct v; try (left; cbn; apply Hnil).
    cbn [APP.say APP.extraction_results APP.output_file APP.out].
    destruct (APP.extraction_results s ++ APP.expand_rows _ kv)%list
      as [|r rs] eqn:E.
    + left. cbn. apply Hnil.
    + destruct (APP.to_excel w _); right; cbn;
        rewrite attempts_app, Hnil; reflexivity.
Qed.

Lemma scalar_fields_in_cols (k : string) :
  In k scalar_fields -> In k INC.cols /\ In k APP.cols.
Proof.
  unfold scalar_fields, INC.cols, APP.cols. cbn.
  intros H. repeat (destruct H as [<- | H]; [split; tauto|]). destruct H.
Qed.

Lemma row_scalar_field (filename : string) (data : dict) (gw : list json)
  (i : nat) (c : json) (k : string) :
  In k scalar_fields ->
  dict_get (INC.row filename data gw i c) k = dict_get data k.
Proof.
  unfold scalar_fields. cbn.
  intros H. repeat (destruct H as [<- | H]; [reflexivity|]). destruct H.
Qed.

(** C6. Every table handed to [to_excel], by a run of the batch script from
    any file and directory or by a request to the service, has exactly the
    columns of the fixed schema, in the fixed order, and one cell under each
    of them in every row; a scalar field that the record of a document lacks
    is an explicit null cell in all rows of that document. *)
Theorem C6_written_tables_have_the_fixed_columns :
  forall (listdir : list string) (infer : string -> outcome)
         (to_excel : nat -> table -> option exn) (disk0 : option file_content)
         (secure_filename : string -> string) (DEFAULT_PROMPT : string)
         (w : APP.world) (req : APP.request) (s : APP.state),
    (forall t : table,
        In t (attempts (INC.out (final (INC.main listdir infer to_excel disk0)))) ->
        laid_out INC.cols t)
    /\ (forall t : table,
          In t (attempts
                  (APP.out (snd (APP.extract secure_filename DEFAULT_PROMPT w req s)))) ->
          In t (attempts (APP.out s)) \/ laid_out APP.cols t)
    /\ (forall (filename : string) (data : dict) (k : string) (t : table),
          In k scalar_fields ->
          dict_lookup k data = None ->
          t = frame_of INC.cols (INC.expand_rows filename data)
          \/ t = frame_of APP.cols (APP.expand_rows filename data) ->
          Forall (fun row => cell t row k = Some JNull) (cells t)).
Proof.
  intros listdir infer to_excel disk0 secure_filename DEFAULT_PROMPT w req s.
  split; [|split].
  - intros t Hin. unfold INC.main in Hin.
    pose proof (INC_load_existing_prints disk0) as Hp.
    destruct (INC.load_existing disk0) as [results printed]. cbn in Hp.
    revert t Hin. apply Forall_forall. apply INC_loop_attempts.
    cbn. rewrite Hp. constructor.
  - intros t Hin.
    destruct (APP_extract_attempts secure_filename DEFAULT_PROMPT w req s)
      as [H | H]; rewrite H in Hin.
    + now left.
    + apply in_app_or in Hin. destruct Hin as [Hin | [<- | []]]; [now left|].
      right. apply frame_of_laid_out.
  - intros filename data k t Hk Hmiss Ht.
    destruct (scalar_fields_in_cols k Hk) as [Hi Ha].
    apply Forall_forall. intros row Hrow.
    destruct Ht as [-> | ->]; unfold frame_of in Hrow; cbn [cells] in Hrow;
      apply in_map_iff in Hrow; destruct Hrow as (r & <- & Hr);
      apply in_map_iff in Hr; destruct Hr as ([i c] & <- & _);
      unfold cell, frame_of; cbn [columns].
    + rewrite (cell_frame_of INC.cols _ k Hi).
      rewrite row_scalar_field by exact Hk.
      now rewrite (dict_get_missing data k Hmiss).
    + rewrite (cell_frame_of APP.cols _ k Ha).
      change (APP.row filename data ?g i c) with (INC.row filename data g i c).
      rewrite row_scalar_field by exact Hk.
      now rewrite (dict_get_missing data k Hmiss).
Qed.



(** C7. An answer that violates the schema is not turned into an absence by
    MAERSK_INC.  When the model answers a.pdf with the JSON list
    ["BMOU1441213"], [extract_from_pdf] returns the list and prints
    nothing, and [main] ends with the [AttributeError] of [data.get]:
    b.pdf, which follows, is never read and nothing is written.  The
    answer [null] is passed over without any report.  The service, on the
    same list, answers 500 for that request alone. *)
Theorem C7_inc_off_schema_answer_ends_the_batch :
  let infer := fun f : string =>
    if String.eqb f "a.pdf" then Returns (JList [JStr "BMOU1441213"])
    else Returns (JObj [("invoice_number", JStr "202057121")]) in
  INC.extract_from_pdf infer "a.pdf" = (JList [JStr "BMOU1441213"], [])
  /\ INC.main ["a.pdf"; "b.pdf"] infer (fun _ _ => None) None
     = Crashed (INC.State [] None [])
         (Exn "AttributeError" "'list' object has no attribute 'get'")
  /\ INC.extract_from_pdf (fun _ => Returns JNull) "a.pdf" = (JNull, [])
  /\ APP.extract (fun name => name) "prompt"
       (APP.World (fun _ _ _ => Returns (JList [JStr "BMOU1441213"]))
          (fun _ => None))
       (APP.Request (Some "key") None (Some (APP.Upload "a.pdf" "%PDF")))
       (APP.State [] None [])
     = (APP.Response 500
          (APP.ErrorJson "'list' object has no attribute 'get'"),
        APP.State [] None []).
Proof.
  cbv zeta. split; [reflexivity|]. split; [reflexivity|].
  split; reflexivity.
Qed.

(** ** Write failures *)

Section INC_write_failure.

Variable infer : string -> outcome.
Variable to_excel : nat -> table -> option exn.

Lemma INC_loop_app (a b : list (nat * string)) (s : INC.state) :
  INC.loop infer to_excel (a ++ b) s
  = match INC.loop infer to_excel a s with
    | Finished s' => INC.loop infer to_excel b s'
    | Crashed s' e => Crashed s' e
    end.
Proof.
  revert s. induction a as [|[index filename] a IH]; intros s; [reflexivity|].
  cbn. destruct (INC.process infer to_excel index filename s); [apply IH|reflexivity].
Qed.

(** Documents whose extraction fails are stepped over: the loop goes on,
    rows and file stay, nothing is written. *)
Lemma INC_loop_failures (skipped : list (nat * string)) (s : INC.state) :
  Forall (fun w => exists e, infer (snd w) = Raises e) skipped ->
  exists s',
    INC.loop infer to_excel skipped s = Finished s'
    /\ INC.results s' = INC.results s
    /\ INC.disk s' = INC.disk s
    /\ attempts (INC.out s') = attempts (INC.out s).
Proof.
  intros H. revert s. induction H as [|[index filename] skipped (e & He) _ IH];
    intros s.
  - exists s. repeat split.
  - cbn in He. cbn [INC.loop].
    rewrite (INC_process_raises infer to_excel index filename s e He).
    destruct (IH {| INC.results := INC.results s; INC.disk := INC.disk s;
                    INC.out :=
                      INC.out s
                      ++ [Print ("Error processing " ++ filename ++ ": "
                                 ++ exn_msg e); Sleep 1] |})
      as (s' & Hl & Hr & Hd & Ha).
    exists s'. cbn in Hr, Hd, Ha. repeat split; try assumption.
    rewrite Ha, attempts_app. cbn. apply app_nil_r.
Qed.

End INC_write_failure.

(** C8. When the write after a document raises, the turn still ends
    normally: the error is printed, the rows of that document stay in
    [results] and the file keeps its content; the loop goes on over the
    following documents, and at the next document whose extraction returns a
    record the table handed to [to_excel] is the frame of all rows, those
    of the failed write included. *)
Theorem C8_failed_write_is_reported_and_retried :
  forall (infer : string -> outcome) (to_excel : nat -> table -> option exn)
         (s : INC.state) (index : nat) (filename : string) (d : dict) (e : exn)
         (skipped : list (nat * string))
         (index' : nat) (filename' : string) (d' : dict),
    infer filename = Returns (JObj d) -> d <> [] ->
    to_excel index
      (frame_of INC.cols (INC.results s ++ INC.expand_rows filename d))
    = Some e ->
    Forall (fun w => exists e', infer (snd w) = Raises e') skipped ->
    infer filename' = Returns (JObj d') -> d' <> [] ->
    let rows := INC.expand_rows filename d in
    let rows' := INC.expand_rows filename' d' in
    exists s1 s2 : INC.state,
      INC.process infer to_excel index filename s = Finished s1
      /\ INC.results s1 = (INC.results s ++ rows)%list
      /\ INC.disk s1 = INC.disk s
      /\ In (Print (newline ++ "Error saving to Excel: " ++ exn_msg e))
           (INC.out s1)
      /\ INC.loop infer to_excel
           ((index, filename) :: skipped ++ [(index', filename')]) s
         = Finished s2
      /\ INC.results s2 = (INC.results s ++ rows ++ rows')%list
      /\ attempts (INC.out s2)
         = (attempts (INC.out s)
            ++ [frame_of INC.cols (INC.results s ++ rows);
                frame_of INC.cols (INC.results s ++ rows ++ rows')])%list.
Proof.
  intros infer to_excel s index filename d e skipped index' filename' d'
    Hf Hd Hw Hskip Hf' Hd' rows rows'.
  pose proof (INC_process_record infer to_excel index filename s d Hf Hd) as H1.
  unfold INC.save in H1. cbn [INC.results INC.disk INC.out] in H1.
  rewrite Hw in H1. cbn [INC.say INC.results INC.disk INC.out] in H1.
  match type of H1 with _ = Finished ?st => set (s1 := st) in * end.
  destruct (INC_loop_failures infer to_excel skipped s1 Hskip)
    as (s1' & Hl & Hr & Hdk & Ha).
  pose proof (INC_process_record infer to_excel index' filename' s1' d' Hf' Hd')
    as H2.
  match type of H2 with _ = Finished ?st => set (s2 := st) in * end.
  exists s1, s2. repeat split.
  - exact H1.
  - subst s1. cbn. rewrite in_app_iff. left. rewrite in_app_iff. right.
    right. left. reflexivity.
  - cbn [INC.loop]. rewrite H1, INC_loop_app, Hl. cbn [INC.loop]. now rewrite H2.
  - subst s2. cbn [INC.say INC.results]. rewrite INC_save_results.
    cbn [INC.results]. rewrite Hr. subst s1. cbn. now rewrite <- app_assoc.
  - subst s2. cbn [INC.say INC.out]. rewrite attempts_app, INC_save_attempts.
    cbn [INC.results INC.out]. rewrite Ha, Hr. subst s1.
    cbn [INC.say INC.results INC.out]. rewrite !attempts_app. cbn.
    rewrite !app_nil_r. rewrite <- !app_assoc. reflexivity.
Qed.

Lemma C8_failed_write_is_reported_and_retried_witness :
  let infer := fun f : string =>
    if String.eqb f "x.pdf" then Raises (Exn "JSONDecodeError" "Expecting value")
    else Returns (JObj [("invoice_number", JStr f)]) in
  let to_excel := fun (index : nat) (_ : table) =>
    if Nat.eqb index 0 then Some (Exn "PermissionError" "Permission denied")
    else None in
  let rows := INC.expand_rows "a.pdf" [("invoice_number", JStr "a.pdf")] in
  let rows' := INC.expand_rows "b.pdf" [("invoice_number", JStr "b.pdf")] in
  exists s1 s2 : INC.state,
    INC.process infer to_excel 0 "a.pdf" (INC.State [] None []) = Finished s1
    /\ INC.results s1 = rows
    /\ INC.disk s1 = None
    /\ In (Print (newline ++ "Error saving to Excel: Permission denied"))
         (INC.out s1)
    /\ INC.loop infer to_excel [(0, "a.pdf"); (1, "x.pdf"); (2, "b.pdf")]
         (INC.State [] None [])
       = Finished s2
    /\ INC.results s2 = (rows ++ rows')%list
    /\ attempts (INC.out s2)
       = [frame_of INC.cols rows; frame_of INC.cols (rows ++ rows')].
Proof.
  intros infer to_excel.
  apply (C8_failed_write_is_reported_and_retried infer to_excel
           (INC.State [] None []) 0 "a.pdf" [("invoice_number", JStr "a.pdf")]
           (Exn "PermissionError" "Permission denied")
           [(1, "x.pdf")] 2 "b.pdf" [("invoice_number", JStr "b.pdf")]).
  - reflexivity.
  - discriminate.
  - reflexivity.
  - repeat constructor. eexists. reflexivity.
  - reflexivity.
  - discriminate.
Defined.

(** ** Scalars in place of the container list *)

Lemma INC_expand_rows_falsy_container (filename : string) (data : dict) :
  truthy (dict_get data "container_numbers") = false ->
  exists gw : list json,
    INC.expand_rows filename data = [INC.row filename data gw 0 JNull].
Proof.
  intros H. unfold INC.expand_rows.
  assert (E : py_or (dict_get data "container_numbers") (JList [JNull])
              = JList [JNull]) by (unfold py_or; now rewrite H).
  rewrite E. change (INC.listify (JList [JNull])) with [JNull].
  change (Nat.eqb (List.length [JNull]) 0) with false. cbv iota.
  now eexists.
Qed.

Lemma INC_expand_rows_truthy_scalar (filename : string) (data : dict) :
  truthy (dict_get data "container_numbers") = true ->
  isinstance_list (dict_get data "container_numbers") = false ->
  exists gw : list json,
    INC.expand_rows filename data
    = [INC.row filename data gw 0 (dict_get data "container_numbers")].
Proof.
  intros Ht Hl. unfold INC.expand_rows.
  assert (E : py_or (dict_get data "container_numbers") (JList [JNull])
              = dict_get data "container_numbers")
    by (unfold py_or; now rewrite Ht).
  rewrite E.
  assert (Hc : INC.listify (dict_get data "container_numbers")
               = [dict_get data "container_numbers"])
    by (destruct (dict_get data "container_numbers"); try reflexivity; discriminate).
  rewrite Hc.
  change (Nat.eqb (List.length [dict_get data "container_numbers"]) 0) with false.
  cbv iota. now eexists.
Qed.

Lemma APP_expand_rows_scalar (filename : string) (data : dict) :
  dict_get data "container_numbers" <> JNull ->
  isinstance_list (dict_get data "container_numbers") = false ->
  exists gw : list json,
    APP.expand_rows filename data
    = [APP.row filename data gw 0 (dict_get data "container_numbers")].
Proof.
  intros Hn Hl. unfold APP.expand_rows.
  assert (Hc : match dict_get data "container_numbers" with
               | JNull => [JNull]
               | JList l => l
               | _ => [dict_get data "container_numbers"]
               end = [dict_get data "container_numbers"])
    by (destruct (dict_get data "container_numbers");
        first [reflexivity | congruence | discriminate]).
  rewrite Hc.
  change (Nat.eqb (List.length [dict_get data "container_numbers"]) 0) with false.
  cbv iota. now eexists.
Qed.

(** C9. In MAERSK_INC a scalar in place of the container list is kept only
    when it is truthy: [data.get('container_numbers') or [None]] replaces a
    falsy scalar (the empty string, zero, false) before the coercion to a
    one-element list, so the single row holds null; the service keeps every
    scalar, as the specification says. *)
Theorem C9_inc_falsy_scalar_container_becomes_null :
  forall (filename : string) (data : dict) (v : json),
    dict_lookup "container_numbers" data = Some v ->
    v <> JNull ->
    isinstance_list v = false ->
    truthy v = false ->
    exists r_inc r_app : dict,
      INC.expand_rows filename data = [r_inc]
      /\ dict_lookup "container_number" r_inc = Some JNull
      /\ APP.expand_rows filename data = [r_app]
      /\ dict_lookup "container_number" r_app = Some v.
Proof.
  intros filename data v Hv Hn Hl Ht. apply dict_get_lookup in Hv.
  destruct (INC_expand_rows_falsy_container filename data) as (gi & Hi);
    [now rewrite Hv|].
  destruct (APP_expand_rows_scalar filename data) as (ga & Ha);
    [now rewrite Hv | now rewrite Hv |].
  rewrite Hi, Ha, Hv. do 2 eexists. repeat split.
Qed.

Lemma C9_inc_falsy_scalar_container_becomes_null_witness :
  exists r_inc r_app : dict,
    INC.expand_rows "a.pdf" [("container_numbers", JStr "")] = [r_inc]
    /\ dict_lookup "container_number" r_inc = Some JNull
    /\ APP.expand_rows "a.pdf" [("container_numbers", JStr "")] = [r_app]
    /\ dict_lookup "container_number" r_app = Some (JStr "").
Proof.
  apply (C9_inc_falsy_scalar_container_becomes_null "a.pdf"
           [("container_numbers", JStr "")] (JStr "")).
  - reflexivity.
  - discriminate.
  - reflexivity.
  - reflexivity.
Defined.

(** C10. The two expansions are not the same function of the record: on
    the empty record the batch script adds no row where the service adds
    one, and on a falsy scalar container the batch script writes null where
    the service writes the scalar. *)
Theorem C10_batch_and_service_rows_differ :
  (INC.results
     (final (INC.process (fun _ => Returns (JObj [])) (fun _ _ => None) 0
               "a.pdf" (INC.State [] None [])))
   = []
   /\ APP.extraction_results
        (snd (APP.extract (fun name => name) ""
                (APP.World (fun _ _ _ => Returns (JObj [])) (fun _ => None))
                (APP.Request (Some "key") None (Some (APP.Upload "a.pdf" "%PDF")))
                (APP.State [] None [])))
      = [APP.row "a.pdf" [] [JNull] 0 JNull])
  /\ INC.expand_rows "a.pdf" [("container_numbers", JStr "")]
     <> APP.expand_rows "a.pdf" [("container_numbers", JStr "")].
Proof.
  split; [split; reflexivity|]. cbv. discriminate.
Qed.

(** ** One turn of the batch loop (MAERSK_NA) *)

Section NA_turn.

Variable infer : string -> outcome.
Variable to_excel : nat -> table -> option exn.

Lemma NA_process_raises (index : nat) (filename : string) (s : NA.state) (e : exn) :
  infer filename = Raises e ->
  NA.process infer to_excel index filename s
  = Finished
      {| NA.results := NA.results s; NA.disk := NA.disk s;
         NA.out :=
           NA.out s
           ++ [Print ("Error processing " ++ filename ++ ": " ++ exn_msg e);
               Sleep 1] |}.
Proof.
  intros H. unfold NA.process, NA.extract_from_pdf. rewrite H.
  unfold NA.say. cbn. now rewrite <- app_assoc.
Qed.

Lemma NA_process_falsy (index : nat) (filename : string) (s : NA.state) (v : json) :
  infer filename = Returns v ->
  truthy v = false ->
  NA.process infer to_excel index filename s
  = Finished
      {| NA.results := NA.results s; NA.disk := NA.disk s;
         NA.out := NA.out s ++ [Sleep 1] |}.
Proof.
  intros H Hv. unfold NA.process, NA.extract_from_pdf. rewrite H, Hv.
  unfold NA.say. cbn. now rewrite app_nil_r.
Qed.

Lemma NA_process_record (index : nat) (filename : string) (s : NA.state) (d : dict) :
  infer filename = Returns (JObj d) ->
  d <> [] ->
  NA.process infer to_excel index filename s
  = Finished
      (NA.say
         (NA.save (to_excel index)
            {| NA.results :=
                 NA.results s ++ [dict_set "filename" (JStr filename) d];
               NA.disk := NA.disk s; NA.out := NA.out s |})
         [Sleep 1]).
Proof.
  intros H Hd. unfold NA.process, NA.extract_from_pdf. rewrite H.
  destruct d as [|kv d]; [congruence|].
  unfold NA.say at 2 3 4. cbn [truthy NA.results NA.disk NA.out].
  now rewrite app_nil_r.
Qed.

Lemma NA_process_crash (index : nat) (filename : string) (s : NA.state) (v : json) :
  infer filename = Returns v ->
  truthy v = true ->
  (forall d, v <> JObj d) ->
  NA.process infer to_excel index filename s
  = Crashed
      {| NA.results := NA.results s; NA.disk := NA.disk s; NA.out := NA.out s |}
      (NA.setitem_error v).
Proof.
  intros H Hv Hd. unfold NA.process, NA.extract_from_pdf. rewrite H, Hv.
  unfold NA.say. cbn. rewrite app_nil_r.
  destruct v; try reflexivity. now destruct (Hd kv).
Qed.



End NA_turn.

(** ** Resume bookkeeping of MAERSK_NA *)

Lemma dict_lookup_set (k : string) (v : json) (d : dict) :
  dict_lookup k (dict_set k v d) = Some v.
Proof.
  induction d as [|[k' v'] d IH]; cbn.
  - now rewrite String.eqb_refl.
  - destruct (String.eqb_spec k' k) as [->|Hne]; cbn.
    + now rewrite String.eqb_refl.
    + destruct (String.eqb_spec k' k); [contradiction|exact IH].
Qed.

Lemma dict_lookup_set_other (k k' : string) (v : json) (d : dict) :
  k' <> k -> dict_lookup k' (dict_set k v d) = dict_lookup k' d.
Proof.
  intros Hne. induction d as [|[k0 v0] d IH]; cbn.
  - destruct (String.eqb_spec k k'); [congruence|reflexivity].
  - destruct (String.eqb_spec k0 k) as [->|Hk]; cbn.
    + destruct (String.eqb_spec k k'); [congruence|reflexivity].
    + destruct (String.eqb_spec k0 k'); [reflexivity|exact IH].
Qed.

Lemma NA_processed_files_app (a b : list dict) :
  NA.processed_files (a ++ b)
  = (NA.processed_files a ++ NA.processed_files b)%list.
Proof. apply flat_map_app. Qed.

(** Reading back a sheet written by MAERSK_NA marks the same documents as
    the rows it was written from. *)
Lemma NA_load_own_sheet (rs : list dict) :
  NA.load_existing (Some (Sheet (frame_of NA.cols rs)))
  = (to_dict_records (frame_of NA.cols rs), []).
Proof. reflexivity. Qed.

Lemma NA_processed_roundtrip (x : string) (rs : list dict) :
  str_in x (NA.processed_files (to_dict_records (frame_of NA.cols rs)))
  = str_in x (NA.processed_files rs).
Proof.
  unfold to_dict_records, frame_of. cbn [columns cells]. rewrite map_map.
  unfold NA.processed_files.
  induction rs as [|r rs IH]; [reflexivity|].
  cbn [map flat_map]. rewrite !str_in_app, IH. f_equal.
  cbn. unfold dict_contains, dict_get.
  destruct (dict_lookup "filename" r); reflexivity.
Qed.

(** The state is in step with its file when reading the file back marks
    the documents that the rows in memory mark. *)
Lemma NA_in_step_after_write (x : string) (rs : list dict) :
  str_in x
    (NA.processed_files
       (fst (NA.load_existing (Some (Sheet (frame_of NA.cols rs))))))
  = str_in x (NA.processed_files rs).
Proof. rewrite NA_load_own_sheet. apply NA_processed_roundtrip. Qed.

Section NA_first_run.

Variable infer : string -> outcome.
Variable to_excel : nat -> table -> option exn.
Hypothesis writes_succeed : forall index t, to_excel index t = None.


End NA_first_run.

(** ** Two runs of MAERSK_NA *)






Lemma NA_load_existing_prints (disk : option file_content) :
  attempts (snd (NA.load_existing disk)) = [].
Proof.
  destruct disk as [[e|t]|]; cbn; try reflexivity.
  now destruct (existsb _ _).
Qed.

(** C2. Resume is not idempotent in MAERSK_INC.  Two documents, both
    extracted and saved by a first run that starts without a file: the run
    started from the file left behind loads no row (the sheet has the
    column [file_name], the loader asks for [filename]), has both
    documents pending again and writes the table twice more.  On the same
    documents MAERSK_NA resumes as specified: nothing pending, the file
    left as it was. *)
Theorem C2_inc_second_run_processes_everything_again :
  let listdir := ["a.pdf"; "b.pdf"] in
  let infer := fun f : string => Returns (JObj [("invoice_number", JStr f)]) in
  let writes := fun (_ : nat) (_ : table) => @None exn in
  let s1 := final (INC.main listdir infer writes None) in
  let s2 := final (INC.main listdir infer writes (INC.disk s1)) in
  fst (INC.load_existing (INC.disk s1)) = []
  /\ INC.files_to_process listdir (fst (INC.load_existing (INC.disk s1)))
     = ["a.pdf"; "b.pdf"]
  /\ List.length (attempts (INC.out s2)) = 2
  /\ ~ INC_resume_idempotent listdir infer
  /\ NA_resume_idempotent listdir infer.
Proof.
  cbv zeta. split; [reflexivity|]. split; [reflexivity|].
  split; [reflexivity|]. split.
  - intros [H _]. vm_compute in H. discriminate H.
  - split; reflexivity.
Qed.



(** * Further properties of the row expansion *)

Lemma expand_rows_same_on_lists (filename : string) (data : dict) (cs : list json) :
  dict_get data "container_numbers" = JList cs ->
  INC.expand_rows filename data = APP.expand_rows filename data.
Proof.
  intros Hc. unfold INC.expand_rows, APP.expand_rows. rewrite Hc.
  destruct cs; reflexivity.
Qed.

(** X1. The batch script and the service expand a record into the same rows
    whenever its [container_numbers] is missing, null, a list, or a truthy
    scalar: they part only on a falsy scalar. *)
Theorem expand_rows_agree :
  forall (filename : string) (data : dict),
    truthy (dict_get data "container_numbers") = true
    \/ dict_get data "container_numbers" = JNull
    \/ isinstance_list (dict_get data "container_numbers") = true ->
    INC.expand_rows filename data = APP.expand_rows filename data.
Proof.
  intros filename data H.
  assert (Hcn :
    INC.listify (py_or (dict_get data "container_numbers") (JList [JNull]))
    = match dict_get data "container_numbers" with
      | JNull => [JNull]
      | JList [] => [JNull]
      | JList l => l
      | v => [v]
      end).
  { unfold py_or. destruct (dict_get data "container_numbers") as [| b | z | f | s | l | kv];
      cbn [isinstance_list] in H; try reflexivity.
    - destruct H as [H | [H | H]]; try discriminate. cbn in H. now subst b.
    - destruct H as [H | [H | H]]; try discriminate. now rewrite H.
    - destruct H as [H | [H | H]]; try discriminate. now rewrite H.
    - destruct H as [H | [H | H]]; try discriminate. now rewrite H.
    - now destruct l.
    - destruct H as [H | [H | H]]; try discriminate. now rewrite H. }
  unfold INC.expand_rows, APP.expand_rows. rewrite Hcn.
  change (match py_or (dict_get data "gross_weights") (JList []) with
          | JList l => l
          | _ => [py_or (dict_get data "gross_weights") (JList [])]
          end)
    with (INC.listify (py_or (dict_get data "gross_weights") (JList []))).
  destruct (dict_get data "container_numbers") as [| b | z | f | s | [|c l] | kv];
    reflexivity.
Qed.

Lemma expand_rows_agree_witness :
  INC.expand_rows "a.pdf"
    [("container_numbers", JStr "BMOU1441213"); ("gross_weights", JInt 7678)]
  = APP.expand_rows "a.pdf"
      [("container_numbers", JStr "BMOU1441213"); ("gross_weights", JInt 7678)].
Proof.
  apply (expand_rows_agree "a.pdf"
           [("container_numbers", JStr "BMOU1441213");
            ("gross_weights", JInt 7678)]).
  left. reflexivity.
Defined.

(** X2. Every decoded record gives at least one row, in both programs. *)
Theorem expand_rows_never_empty :
  forall (filename : string) (data : dict),
    1 <= List.length (INC.expand_rows filename data)
    /\ 1 <= List.length (APP.expand_rows filename data).
Proof.
  intros filename data. split.
  - unfold INC.expand_rows. rewrite length_rows.
    match goal with |- context [Nat.eqb (List.length ?l) 0] =>
      destruct l; cbn; lia end.
  - unfold APP.expand_rows. rewrite length_rows.
    match goal with |- context [Nat.eqb (List.length ?l) 0] =>
      destruct l; cbn; lia end.
Qed.

(** The rows of a record whose containers are a non-empty list, whatever
    its weights are. *)
Lemma INC_expand_rows_containers (filename : string) (data : dict) (cs : list json) :
  dict_get data "container_numbers" = JList cs ->
  cs <> [] ->
  INC.expand_rows filename data
  = map (fun '(i, c) =>
           INC.row filename data
             (padded (INC.listify (py_or (dict_get data "gross_weights") (JList [])))
                (List.length cs)) i c)
      (enumerate cs).
Proof.
  intros Hc Hne. unfold INC.expand_rows. rewrite Hc.
  destruct cs as [|c cs]; [congruence|].
  change (INC.listify (py_or (JList (c :: cs)) (JList [JNull]))) with (c :: cs).
  change (Nat.eqb (List.length (c :: cs)) 0) with false. cbv iota.
  now rewrite INC_pad_while_spec by lia.
Qed.

(** X3. One row per container, in the order of the list, each with the weight
    of the same index; weights beyond the last container are in no row. *)
Theorem rows_follow_the_containers :
  forall (filename : string) (data : dict) (cs ws : list json),
    dict_get data "container_numbers" = JList cs ->
    cs <> [] ->
    dict_get data "gross_weights" = JList ws ->
    forall rows : list dict,
      rows = INC.expand_rows filename data
      \/ rows = APP.expand_rows filename data ->
      List.length rows = List.length cs
      /\ forall (i : nat) (c : json),
          nth_error cs i = Some c ->
          exists r : dict,
            nth_error rows i = Some r
            /\ dict_lookup "container_number" r = Some c
            /\ dict_lookup "gross_weight" r = Some (nth i ws JNull).
Proof.
  intros filename data cs ws Hc Hne Hw rows Hrows.
  assert (Hinc : rows = INC.expand_rows filename data).
  { destruct Hrows as [-> | ->]; [reflexivity|]. symmetry.
    now apply (expand_rows_same_on_lists filename data cs). }
  rewrite Hinc, (INC_expand_rows_lists filename data cs ws Hc Hne Hw). split.
  - apply length_rows.
  - intros i c Hi. rewrite nth_error_rows, Hi. eexists. split; [reflexivity|].
    destruct (INC_row_fields filename data (padded ws (List.length cs)) i c)
      as (_ & Hcn & Hgw & _).
    rewrite nth_padded in Hgw. now split.
Qed.

Lemma rows_follow_the_containers_witness :
  let data :=
    [("container_numbers", JList [JStr "BMOU1441213"]);
     ("gross_weights", JList [JInt 7678; JInt 5432])] in
  List.length (APP.expand_rows "a.pdf" data) = 1
  /\ forall (i : nat) (c : json),
      nth_error [JStr "BMOU1441213"] i = Some c ->
      exists r : dict,
        nth_error (APP.expand_rows "a.pdf" data) i = Some r
        /\ dict_lookup "container_number" r = Some c
        /\ dict_lookup "gross_weight" r
           = Some (nth i [JInt 7678; JInt 5432] JNull).
Proof.
  intros data.
  apply (rows_follow_the_containers "a.pdf" data [JStr "BMOU1441213"]
           [JInt 7678; JInt 5432]).
  - reflexivity.
  - discriminate.
  - reflexivity.
  - right. reflexivity.
Defined.

(** X4. A scalar in place of the weight list, when truthy, is the weight of the
    first container only; the other rows get null. *)
Theorem scalar_weight_goes_to_the_first_row :
  forall (filename : string) (data : dict) (cs : list json) (w : json),
    dict_get data "container_numbers" = JList cs ->
    cs <> [] ->
    dict_get data "gross_weights" = w ->
    isinstance_list w = false ->
    truthy w = true ->
    forall rows : list dict,
      rows = INC.expand_rows filename data
      \/ rows = APP.expand_rows filename data ->
      forall i : nat,
        i < List.length cs ->
        exists r : dict,
          nth_error rows i = Some r
          /\ dict_lookup "gross_weight" r
             = Some (if Nat.eqb i 0 then w else JNull).
Proof.
  intros filename data cs w Hc Hne Hw Hl Ht rows Hrows i Hi.
  assert (Hinc : rows = INC.expand_rows filename data).
  { destruct Hrows as [-> | ->]; [reflexivity|]. symmetry.
    now apply (expand_rows_same_on_lists filename data cs). }
  rewrite Hinc, (INC_expand_rows_containers filename data cs Hc Hne), Hw.
  assert (Hgw : INC.listify (py_or w (JList [])) = [w]).
  { unfold py_or. rewrite Ht. destruct w; try reflexivity. discriminate. }
  rewrite Hgw, nth_error_rows, (nth_nth_error cs i Hi). eexists.
  split; [reflexivity|].
  destruct (INC_row_fields filename data (padded [w] (List.length cs)) i
              (nth i cs JNull)) as (_ & _ & Hg & _).
  rewrite Hg, nth_padded. destruct i as [|[|i]]; reflexivity.
Qed.

Lemma scalar_weight_goes_to_the_first_row_witness :
  let data :=
    [("container_numbers", JList [JStr "BMOU1441213"; JStr "MSKU9876543"]);
     ("gross_weights", JInt 7678)] in
  exists r : dict,
    nth_error (INC.expand_rows "a.pdf" data) 1 = Some r
    /\ dict_lookup "gross_weight" r = Some JNull.
Proof.
  intros data.
  apply (scalar_weight_goes_to_the_first_row "a.pdf" data
           [JStr "BMOU1441213"; JStr "MSKU9876543"] (JInt 7678)
           eq_refl ltac:(discriminate) eq_refl eq_refl eq_refl
           (INC.expand_rows "a.pdf" data) (or_introl eq_refl) 1).
  simpl. lia.
Defined.

(** X5. A scalar in place of the container list gives one row that carries
    it: in the batch script when the scalar is truthy, in the service
    whenever it is not null. *)
Theorem scalar_container_gives_one_row :
  forall (filename : string) (data : dict) (v : json),
    dict_get data "container_numbers" = v ->
    isinstance_list v = false ->
    (truthy v = true ->
     exists r : dict,
       INC.expand_rows filename data = [r]
       /\ dict_lookup "container_number" r = Some v)
    /\ (v <> JNull ->
        exists r : dict,
          APP.expand_rows filename data = [r]
          /\ dict_lookup "container_number" r = Some v).
Proof.
  intros filename data v Hv Hl. split.
  - intros Ht.
    destruct (INC_expand_rows_truthy_scalar filename data) as (gw & ->);
      [now rewrite Hv | now rewrite Hv |].
    rewrite Hv. eexists. split; reflexivity.
  - intros Hn.
    destruct (APP_expand_rows_scalar filename data) as (gw & ->);
      [now rewrite Hv | now rewrite Hv |].
    rewrite Hv. eexists. split; reflexivity.
Qed.

Lemma scalar_container_gives_one_row_witness :
  exists r : dict,
    INC.expand_rows "a.pdf" [("container_numbers", JStr "BMOU1441213")] = [r]
    /\ dict_lookup "container_number" r = Some (JStr "BMOU1441213").
Proof.
  apply (proj1 (scalar_container_gives_one_row "a.pdf"
                  [("container_numbers", JStr "BMOU1441213")]
                  (JStr "BMOU1441213") eq_refl eq_refl)).
  reflexivity.
Defined.

(** * The service *)

Section Service_facts.

Variable secure_filename : string -> string.
Variable DEFAULT_PROMPT : string.

Lemma APP_expand_rows_cons (filename : string) (data : dict) :
  exists r rs, APP.expand_rows filename data = r :: rs.
Proof.
  unfold APP.expand_rows.
  match goal with |- context [Nat.eqb (List.length ?xs) 0] =>
    destruct xs as [|c0 xs0]; cbn; eauto end.
Qed.

(** An accepted request whose document the model answers with a record. *)
Lemma APP_extract_record (w : APP.world) (req : APP.request) (s : APP.state)
  (key : string) (f : APP.upload) (d : dict) :
  accepted req key f ->
  answer DEFAULT_PROMPT w req key f = Returns (JObj d) ->
  let new_rows := APP.expand_rows (secure_filename (APP.filename f)) d in
  let results := (APP.extraction_results s ++ new_rows)%list in
  let df := frame_of APP.cols results in
  APP.extract secure_filename DEFAULT_PROMPT w req s
  = match APP.to_excel w df with
    | None =>
        (APP.Response 200 (APP.ExtractJson new_rows (List.length results)),
         {| APP.extraction_results := results;
            APP.output_file := Some (Sheet df);
            APP.out := APP.out s ++ [ToExcel df None] |})
    | Some e =>
        (APP.Response 500 (APP.ErrorJson (exn_msg e)),
         {| APP.extraction_results := results;
            APP.output_file := APP.output_file s;
            APP.out := APP.out s ++ [ToExcel df (Some e)] |})
    end.
Proof.
  intros (Hk & Hkne & Hf & Hfne & Hal) Hans new_rows results df.
  unfold APP.extract. rewrite Hk.
  destruct (String.eqb_spec key ""); [contradiction|].
  rewrite Hf. destruct (String.eqb_spec (APP.filename f) ""); [contradiction|].
  rewrite Hal. cbn [negb orb]. unfold APP.extract_from_pdf.
  unfold answer in Hans. rewrite Hans.
  cbn [APP.say APP.extraction_results APP.output_file APP.out].
  fold new_rows. fold results.
  assert (Hne : exists r rs, results = r :: rs).
  { subst results new_rows.
    destruct (APP_expand_rows_cons (secure_filename (APP.filename f)) d)
      as (r & rs & ->).
    destruct (APP.extraction_results s); cbn; eauto. }
  destruct Hne as (r & rs & Hres).
  rewrite app_nil_r. fold df.
  destruct results as [|r0 rs0]; [discriminate|].
  destruct (APP.to_excel w df); reflexivity.
Qed.

End Service_facts.

(** X6. [extract] answers 400 exactly when the key is missing or empty, no file
    was uploaded, or the file name is empty or not allowed; a request
    refused this way leaves the rows, the file and the trace as they were. *)
Theorem extract_refusal_changes_nothing :
  forall (secure_filename : string -> string) (DEFAULT_PROMPT : string)
         (w : APP.world) (req : APP.request) (s : APP.state),
    let r := APP.extract secure_filename DEFAULT_PROMPT w req s in
    (APP.status (fst r) = 400 <-> ~ exists key f, accepted req key f)
    /\ (APP.status (fst r) = 400 -> snd r = s).
Proof.
  intros secure_filename DEFAULT_PROMPT w req s. cbv zeta.
  unfold APP.extract, accepted.
  destruct (APP.api_key req) as [key|].
  2:{ cbn. split; [|reflexivity]. split; [|reflexivity].
      intros _ (key & f & H & _). discriminate. }
  destruct (String.eqb_spec key "") as [->|Hk].
  { cbn. split; [|reflexivity]. split; [|reflexivity].
    intros _ (key & f & H & Hne & _). congruence. }
  destruct (APP.file req) as [f|].
  2:{ cbn. split; [|reflexivity]. split; [|reflexivity].
      intros _ (key' & f & _ & _ & H & _). discriminate. }
  destruct (String.eqb_spec (APP.filename f) "") as [Hf|Hf].
  { cbn. split; [|reflexivity]. split; [|reflexivity].
    intros _ (key' & f' & _ & _ & H & Hne & _). congruence. }
  destruct (APP.allowed_file (APP.filename f)) eqn:Hal.
  2:{ cbn. split; [|reflexivity]. split; [|reflexivity].
      intros _ (key' & f' & _ & _ & H & _ & Hal'). congruence. }
  cbn [negb orb].
  assert (Hacc : exists key0 f0, Some key = Some key0 /\ key0 <> ""
                                 /\ Some f = Some f0 /\ APP.filename f0 <> ""
                                 /\ APP.allowed_file (APP.filename f0) = true)
    by (exists key, f; tauto).
  match goal with |- (APP.status (fst ?r) = 400 <-> _) /\ _ =>
    assert (Hs : APP.status (fst r) <> 400) end.
  { destruct (APP.extract_from_pdf w (APP.content f) key _) as [[v|e] printed];
      [|cbn; discriminate].
    destruct v; try (cbn; discriminate).
    cbn [APP.say APP.extraction_results APP.output_file APP.out].
    destruct (APP.extraction_results s ++ _)%list; [cbn; discriminate|].
    destruct (APP.to_excel w _); cbn; discriminate. }
  split; [split|]; intros; contradiction.
Qed.

(** X7. When the model call of an accepted request fails, [extract] answers 500
    with the message of [extract_from_pdf], prints the report, and keeps
    rows and file as they were. *)
Theorem extract_collaborator_failure :
  forall (secure_filename : string -> string) (DEFAULT_PROMPT : string)
         (w : APP.world) (req : APP.request) (s : APP.state)
         (key : string) (f : APP.upload) (e : exn),
    accepted req key f ->
    answer DEFAULT_PROMPT w req key f = Raises e ->
    APP.extract secure_filename DEFAULT_PROMPT w req s
    = (APP.Response 500 (APP.ErrorJson ("Gemini API Error: " ++ exn_msg e)),
       {| APP.extraction_results := APP.extraction_results s;
          APP.output_file := APP.output_file s;
          APP.out := APP.out s ++ [Print ("Extraction Error: " ++ exn_msg e)] |}).
Proof.
  intros secure_filename DEFAULT_PROMPT w req s key f e
    (Hk & Hkne & Hf & Hfne & Hal) Hans.
  unfold APP.extract. rewrite Hk.
  destruct (String.eqb_spec key ""); [contradiction|].
  rewrite Hf. destruct (String.eqb_spec (APP.filename f) ""); [contradiction|].
  rewrite Hal. cbn [negb orb]. unfold APP.extract_from_pdf.
  unfold answer in Hans. now rewrite Hans.
Qed.

Lemma extract_collaborator_failure_witness :
  APP.extract (fun name => name) "prompt"
    (APP.World (fun _ _ _ => Raises (Exn "InvalidArgument" "API key not valid"))
       (fun _ => None))
    (APP.Request (Some "key") None (Some (APP.Upload "Invoice.PDF" "%PDF")))
    (APP.State [] None [])
  = (APP.Response 500 (APP.ErrorJson "Gemini API Error: API key not valid"),
     APP.State [] None [Print "Extraction Error: API key not valid"]).
Proof.
  apply (extract_collaborator_failure (fun name => name) "prompt"
           (APP.World (fun _ _ _ => Raises (Exn "InvalidArgument" "API key not valid"))
              (fun _ => None))
           (APP.Request (Some "key") None (Some (APP.Upload "Invoice.PDF" "%PDF")))
           (APP.State [] None []) "key" (APP.Upload "Invoice.PDF" "%PDF")
           (Exn "InvalidArgument" "API key not valid")).
  - repeat split; discriminate.
  - reflexivity.
Defined.

(** X8. An accepted request answered with a record, when the write succeeds:
    the response lists the rows of this document and counts all rows held,
    the file holds the frame of all rows, old and new, and [download]
    serves that file. *)
Theorem extract_success_persists_all_rows :
  forall (secure_filename : string -> string) (DEFAULT_PROMPT : string)
         (w : APP.world) (req : APP.request) (s : APP.state)
         (key : string) (f : APP.upload) (d : dict),
    accepted req key f ->
    answer DEFAULT_PROMPT w req key f = Returns (JObj d) ->
    let new_rows := APP.expand_rows (secure_filename (APP.filename f)) d in
    let results := (APP.extraction_results s ++ new_rows)%list in
    APP.to_excel w (frame_of APP.cols results) = None ->
    let r := APP.extract secure_filename DEFAULT_PROMPT w req s in
    fst r
    = APP.Response 200
        (APP.ExtractJson new_rows
           (List.length (APP.extraction_results s) + List.length new_rows))
    /\ APP.extraction_results (snd r) = results
    /\ APP.output_file (snd r) = Some (Sheet (frame_of APP.cols results))
    /\ APP.download (snd r)
       = APP.Response 200 (APP.Attachment (Sheet (frame_of APP.cols results))).
Proof.
  intros secure_filename DEFAULT_PROMPT w req s key f d Hacc Hans
    new_rows results Hok r.
  subst r.
  rewrite (APP_extract_record secure_filename DEFAULT_PROMPT w req s key f d
             Hacc Hans).
  fold new_rows. fold results. rewrite Hok. cbn [fst snd].
  unfold APP.download. cbn [APP.extraction_results APP.output_file].
  repeat split. subst results. now rewrite length_app.
Qed.

Lemma extract_success_persists_all_rows_witness :
  let w := APP.World
             (fun _ _ _ => Returns (JObj [("invoice_number", JStr "202057121")]))
             (fun _ => None) in
  let req := APP.Request (Some "key") None (Some (APP.Upload "a.pdf" "%PDF")) in
  let new_rows :=
    APP.expand_rows "a.pdf" [("invoice_number", JStr "202057121")] in
  let r := APP.extract (fun name => name) "prompt" w req (APP.State [] None []) in
  fst r = APP.Response 200 (APP.ExtractJson new_rows (0 + List.length new_rows))
  /\ APP.extraction_results (snd r) = new_rows
  /\ APP.output_file (snd r) = Some (Sheet (frame_of APP.cols new_rows))
  /\ APP.download (snd r)
     = APP.Response 200 (APP.Attachment (Sheet (frame_of APP.cols new_rows))).
Proof.
  intros w req.
  apply (extract_success_persists_all_rows (fun name => name) "prompt" w req
           (APP.State [] None []) "key" (APP.Upload "a.pdf" "%PDF")
           [("invoice_number", JStr "202057121")]).
  - repeat split; discriminate.
  - reflexivity.
  - reflexivity.
Defined.

(** X9. The service gives the empty record [{}] one row: the (secured) file
    name and an explicit null under every other column; the row is kept
    in memory whatever the writer does. *)
Theorem extract_empty_record_gives_one_null_row :
  forall (secure_filename : string -> string) (DEFAULT_PROMPT : string)
         (w : APP.world) (req : APP.request) (s : APP.state)
         (key : string) (f : APP.upload),
    accepted req key f ->
    answer DEFAULT_PROMPT w req key f = Returns (JObj []) ->
    exists r : dict,
      APP.extraction_results
        (snd (APP.extract secure_filename DEFAULT_PROMPT w req s))
      = (APP.extraction_results s ++ [r])%list
      /\ dict_lookup "file_name" r
         = Some (JStr (secure_filename (APP.filename f)))
      /\ forall k : string,
          In k APP.cols -> k <> "file_name" -> dict_lookup k r = Some JNull.
Proof.
  intros secure_filename DEFAULT_PROMPT w req s key f Hacc Hans.
  rewrite (APP_extract_record secure_filename DEFAULT_PROMPT w req s key f []
             Hacc Hans).
  exists (APP.row (secure_filename (APP.filename f)) [] [JNull] 0 JNull).
  split; [|split].
  - destruct (APP.to_excel w _); reflexivity.
  - reflexivity.
  - intros k Hk Hne. unfold APP.cols in Hk. cbn in Hk.
    repeat (destruct Hk as [<- | Hk]; [try reflexivity; congruence|]).
    destruct Hk.
Qed.

Lemma extract_empty_record_gives_one_null_row_witness :
  exists r : dict,
    APP.extraction_results
      (snd (APP.extract (fun name => name) "prompt"
              (APP.World (fun _ _ _ => Returns (JObj [])) (fun _ => None))
              (APP.Request (Some "key") None (Some (APP.Upload "a.pdf" "%PDF")))
              (APP.State [] None [])))
    = [r]
    /\ dict_lookup "file_name" r = Some (JStr "a.pdf")
    /\ forall k : string,
        In k APP.cols -> k <> "file_name" -> dict_lookup k r = Some JNull.
Proof.
  apply (extract_empty_record_gives_one_null_row (fun name => name) "prompt"
           (APP.World (fun _ _ _ => Returns (JObj [])) (fun _ => None))
           (APP.Request (Some "key") None (Some (APP.Upload "a.pdf" "%PDF")))
           (APP.State [] None []) "key" (APP.Upload "a.pdf" "%PDF")).
  - repeat split; discriminate.
  - reflexivity.
Defined.

(** X10. When the write raises, [extract] answers 500 with the writer's message,
    yet the rows of the document stay in memory: the next request that
    succeeds counts them and writes them to the file with its own. *)
Theorem extract_write_failure_keeps_rows :
  forall (secure_filename : string -> string) (DEFAULT_PROMPT : string)
         (w w' : APP.world) (req req' : APP.request) (s : APP.state)
         (key key' : string) (f f' : APP.upload) (d d' : dict) (e : exn),
    accepted req key f ->
    answer DEFAULT_PROMPT w req key f = Returns (JObj d) ->
    accepted req' key' f' ->
    answer DEFAULT_PROMPT w' req' key' f' = Returns (JObj d') ->
    let rows := APP.expand_rows (secure_filename (APP.filename f)) d in
    let rows' := APP.expand_rows (secure_filename (APP.filename f')) d' in
    let all := (APP.extraction_results s ++ rows ++ rows')%list in
    APP.to_excel w (frame_of APP.cols (APP.extraction_results s ++ rows))
    = Some e ->
    APP.to_excel w' (frame_of APP.cols all) = None ->
    let r1 := APP.extract secure_filename DEFAULT_PROMPT w req s in
    let r2 := APP.extract secure_filename DEFAULT_PROMPT w' req' (snd r1) in
    fst r1 = APP.Response 500 (APP.ErrorJson (exn_msg e))
    /\ APP.extraction_results (snd r1) = (APP.extraction_results s ++ rows)%list
    /\ APP.output_file (snd r1) = APP.output_file s
    /\ fst r2 = APP.Response 200 (APP.ExtractJson rows' (List.length all))
    /\ APP.output_file (snd r2) = Some (Sheet (frame_of APP.cols all)).
Proof.
  intros secure_filename DEFAULT_PROMPT w w' req req' s key key' f f' d d' e
    Hacc Hans Hacc' Hans' rows rows' all Hfail Hok r1 r2.
  assert (H1 : r1 = (APP.Response 500 (APP.ErrorJson (exn_msg e)),
                     {| APP.extraction_results :=
                          (APP.extraction_results s ++ rows)%list;
                        APP.output_file := APP.output_file s;
                        APP.out :=
                          APP.out s
                          ++ [ToExcel
                                (frame_of APP.cols
                                   (APP.extraction_results s ++ rows))
                                (Some e)] |})).
  { subst r1.
    rewrite (APP_extract_record secure_filename DEFAULT_PROMPT w req s key f d
               Hacc Hans).
    fold rows. now rewrite Hfail. }
  subst r2. rewrite H1. cbn [fst snd APP.extraction_results APP.output_file].
  rewrite (APP_extract_record secure_filename DEFAULT_PROMPT w' req' _ key' f' d'
             Hacc' Hans').
  cbn [APP.extraction_results APP.output_file APP.out]. fold rows'.
  rewrite <- app_assoc. fold all. rewrite Hok. repeat split.
Qed.

(** X11. [clear_results] forgets everything: after it [download] answers 404, and
    the next successful request reports and writes its own rows only. *)
Theorem clear_results_forgets :
  forall (secure_filename : string -> string) (DEFAULT_PROMPT : string)
         (w : APP.world) (req : APP.request) (s : APP.state)
         (key : string) (f : APP.upload) (d : dict),
    accepted req key f ->
    answer DEFAULT_PROMPT w req key f = Returns (JObj d) ->
    let rows := APP.expand_rows (secure_filename (APP.filename f)) d in
    APP.to_excel w (frame_of APP.cols rows) = None ->
    let cleared := snd (APP.clear_results s) in
    let r := APP.extract secure_filename DEFAULT_PROMPT w req cleared in
    APP.download cleared
    = APP.Response 404 (APP.ErrorJson "No results to download")
    /\ fst r = APP.Response 200 (APP.ExtractJson rows (List.length rows))
    /\ APP.output_file (snd r) = Some (Sheet (frame_of APP.cols rows)).
Proof.
  intros secure_filename DEFAULT_PROMPT w req s key f d Hacc Hans rows Hok
    cleared r.
  split; [reflexivity|]. subst r.
  rewrite (APP_extract_record secure_filename DEFAULT_PROMPT w req cleared key f d
             Hacc Hans).
  subst cleared. cbn [APP.clear_results snd APP.extraction_results app].
  fold rows. rewrite Hok. split; reflexivity.
Qed.

Lemma extract_write_failure_keeps_rows_witness :
  let answer_a := fun _ _ _ : string =>
    Returns (JObj [("invoice_number", JStr "202057121")]) in
  let w := APP.World answer_a
             (fun _ => Some (Exn "PermissionError" "Permission denied")) in
  let w' := APP.World answer_a (fun _ => None) in
  let req := APP.Request (Some "key") None (Some (APP.Upload "a.pdf" "%PDF")) in
  let req' := APP.Request (Some "key") None (Some (APP.Upload "b.pdf" "%PDF")) in
  let rows := APP.expand_rows "a.pdf" [("invoice_number", JStr "202057121")] in
  let rows' := APP.expand_rows "b.pdf" [("invoice_number", JStr "202057121")] in
  let r1 := APP.extract (fun name => name) "prompt" w req (APP.State [] None []) in
  let r2 := APP.extract (fun name => name) "prompt" w' req' (snd r1) in
  fst r1 = APP.Response 500 (APP.ErrorJson "Permission denied")
  /\ APP.extraction_results (snd r1) = rows
  /\ APP.output_file (snd r1) = None
  /\ fst r2 = APP.Response 200 (APP.ExtractJson rows' 2)
  /\ APP.output_file (snd r2)
     = Some (Sheet (frame_of APP.cols (rows ++ rows'))).
Proof.
  intros answer_a w w' req req'.
  apply (extract_write_failure_keeps_rows (fun name => name) "prompt" w w'
           req req' (APP.State [] None []) "key" "key"
           (APP.Upload "a.pdf" "%PDF") (APP.Upload "b.pdf" "%PDF")
           [("invoice_number", JStr "202057121")]
           [("invoice_number", JStr "202057121")]
           (Exn "PermissionError" "Permission denied")).
  - repeat split; discriminate.
  - reflexivity.
  - repeat split; discriminate.
  - reflexivity.
  - reflexivity.
  - reflexivity.
Defined.

Lemma clear_results_forgets_witness :
  let w := APP.World
             (fun _ _ _ => Returns (JObj [("invoice_number", JStr "202057121")]))
             (fun _ => None) in
  let req := APP.Request (Some "key") None (Some (APP.Upload "b.pdf" "%PDF")) in
  let s := APP.State [[("file_name", JStr "a.pdf")]]
             (Some (Sheet (frame_of APP.cols [[("file_name", JStr "a.pdf")]])))
             [] in
  let rows := APP.expand_rows "b.pdf" [("invoice_number", JStr "202057121")] in
  let cleared := snd (APP.clear_results s) in
  let r := APP.extract (fun name => name) "prompt" w req cleared in
  APP.download cleared
  = APP.Response 404 (APP.ErrorJson "No results to download")
  /\ fst r = APP.Response 200 (APP.ExtractJson rows (List.length rows))
  /\ APP.output_file (snd r) = Some (Sheet (frame_of APP.cols rows)).
Proof.
  intros w req s.
  apply (clear_results_forgets (fun name => name) "prompt" w req s "key"
           (APP.Upload "b.pdf" "%PDF") [("invoice_number", JStr "202057121")]).
  - repeat split; discriminate.
  - reflexivity.
  - reflexivity.
Defined.

(** * The batch drivers *)

Lemma slept_app (a b : list effect) : slept (a ++ b) = slept a + slept b.
Proof. unfold slept. now rewrite map_app, list_sum_app. Qed.

Lemma INC_save_slept (w : table -> option exn) (s : INC.state) :
  slept (INC.out (INC.save w s)) = slept (INC.out s).
Proof.
  unfold INC.save, INC.say.
  destruct (w _); cbn [INC.out]; rewrite slept_app; cbn; lia.
Qed.

(** X12. The loop of MAERSK_INC never drops or reorders a row it holds, and
    every row it adds bears the name of one of the documents it was given. *)
Theorem INC_loop_only_appends :
  forall (infer : string -> outcome) (to_excel : nat -> table -> option exn)
         (work : list (nat * string)) (s : INC.state),
    exists added : list dict,
      INC.results (final (INC.loop infer to_excel work s))
      = (INC.results s ++ added)%list
      /\ Forall (fun r => exists w, In w work
                                   /\ dict_lookup "file_name" r
                                      = Some (JStr (snd w))) added.
Proof.
  intros infer to_excel work. induction work as [|[index filename] work IH];
    intros s.
  - exists []. cbn. now rewrite app_nil_r.
  - destruct (INC_process_summary infer to_excel index filename s)
      as ((rows & Hr & Hrows & _) & _).
    cbn [INC.loop].
    destruct (INC.process infer to_excel index filename s) as [s0|s0 e];
      cbn [final] in *.
    + destruct (IH s0) as (added & Ha & Hadded).
      exists (rows ++ added)%list. split.
      * now rewrite Ha, Hr, app_assoc.
      * apply Forall_app. split.
        -- eapply Forall_impl; [|exact Hrows]. intros r H.
           exists (index, filename). split; [now left|exact H].
        -- eapply Forall_impl; [|exact Hadded]. intros r (w & Hw & H).
           exists w. split; [now right|exact H].
    + exists rows. split; [exact Hr|].
      eapply Forall_impl; [|exact Hrows]. intros r H.
      exists (index, filename). split; [now left|exact H].
Qed.

(** X13. While every write succeeds, the file keeps pace with the memory: after
    any number of turns either nothing was added and the file is as it
    was, or the file is the frame of all rows held. *)
Theorem INC_file_keeps_pace :
  forall (infer : string -> outcome) (to_excel : nat -> table -> option exn)
         (work : list (nat * string)) (s : INC.state),
    (forall index t, to_excel index t = None) ->
    let s' := final (INC.loop infer to_excel work s) in
    INC.results s' = INC.results s /\ INC.disk s' = INC.disk s
    \/ INC.disk s' = Some (Sheet (frame_of INC.cols (INC.results s'))).
Proof.
  intros infer to_excel work s Hok.
  apply (INC_loop_preserves infer to_excel
           (fun s' => INC.results s' = INC.results s /\ INC.disk s' = INC.disk s
                      \/ INC.disk s'
                         = Some (Sheet (frame_of INC.cols (INC.results s'))))).
  - intros index filename s0 Hs0.
    destruct (INC_process_cases infer filename)
      as [(e & H) | [(v & H & Hv) | [(d & H & Hd) | (v & H & Hv & Hn)]]].
    + rewrite (INC_process_raises infer to_excel index filename s0 e H). exact Hs0.
    + rewrite (INC_process_falsy infer to_excel index filename s0 v H Hv). exact Hs0.
    + rewrite (INC_process_record infer to_excel index filename s0 d H Hd).
      right. cbn [final INC.say INC.results INC.disk].
      rewrite INC_save_disk, INC_save_results, Hok. reflexivity.
    + rewrite (INC_process_crash infer to_excel index filename s0 v H Hv Hn).
      exact Hs0.
  - left. split; reflexivity.
Qed.

Lemma INC_file_keeps_pace_witness :
  let infer := fun f : string => Returns (JObj [("invoice_number", JStr f)]) in
  let s' := final (INC.loop infer (fun _ _ => None) [(0, "a.pdf"); (1, "b.pdf")]
                     (INC.State [] None [])) in
  INC.results s' = [] /\ INC.disk s' = None
  \/ INC.disk s' = Some (Sheet (frame_of INC.cols (INC.results s'))).
Proof.
  intros infer.
  apply (INC_file_keeps_pace infer (fun _ _ => None)
           [(0, "a.pdf"); (1, "b.pdf")] (INC.State [] None [])).
  intros index t. reflexivity.
Defined.

(** X14. The driver sleeps one second after every document, extracted or not:
    a loop that ends normally has slept as many seconds as it had
    documents. *)
Theorem INC_one_sleep_per_document :
  forall (infer : string -> outcome) (to_excel : nat -> table -> option exn)
         (work : list (nat * string)) (s s' : INC.state),
    INC.loop infer to_excel work s = Finished s' ->
    slept (INC.out s') = slept (INC.out s) + List.length work.
Proof.
  intros infer to_excel work. induction work as [|[index filename] work IH];
    intros s s' H.
  - injection H as <-. cbn. lia.
  - cbn [INC.loop] in H.
    destruct (INC_process_cases infer filename)
      as [(e & Hi) | [(v & Hi & Hv) | [(d & Hi & Hd) | (v & Hi & Hv & Hn)]]].
    + rewrite (INC_process_raises infer to_excel index filename s e Hi) in H.
      rewrite (IH _ _ H). cbn [INC.out List.length]. rewrite slept_app. cbn. lia.
    + rewrite (INC_process_falsy infer to_excel index filename s v Hi Hv) in H.
      rewrite (IH _ _ H). cbn [INC.out List.length]. rewrite slept_app. cbn. lia.
    + rewrite (INC_process_record infer to_excel index filename s d Hi Hd) in H.
      rewrite (IH _ _ H). cbn [INC.say INC.out List.length].
      rewrite slept_app, INC_save_slept. cbn [INC.out].
      change (slept [Sleep 1]) with 1. lia.
    + rewrite (INC_process_crash infer to_excel index filename s v Hi Hv Hn) in H.
      discriminate.
Qed.

Lemma INC_one_sleep_per_document_witness :
  slept [Print "Error processing x.pdf: Expecting value"; Sleep 1]
  = slept [] + List.length [(0, "x.pdf")].
Proof.
  apply (INC_one_sleep_per_document
           (fun _ => Raises (Exn "JSONDecodeError" "Expecting value"))
           (fun _ _ => None) [(0, "x.pdf")] (INC.State [] None [])
           (INC.State [] None
              [Print "Error processing x.pdf: Expecting value"; Sleep 1])).
  reflexivity.
Defined.

Lemma in_app_single (e x : effect) (l : list effect) :
  In e (l ++ [x]) -> In e l \/ e = x.
Proof.
  intros H. apply in_app_or in H. destruct H as [H | [H | []]]; auto.
Qed.

(** X15. Once a run of MAERSK_INC has saved a table, a run started from that
    file finds nothing processed: every PDF of the directory is pending
    again (the loader looks for a [filename] column, the sheet has
    [file_name]). *)
Theorem INC_next_run_starts_over :
  forall (listdir : list string) (infer : string -> outcome)
         (to_excel : nat -> table -> option exn) (disk0 : option file_content)
         (t : table),
    let s1 := final (INC.main listdir infer to_excel disk0) in
    In (ToExcel t None) (INC.out s1) ->
    fst (INC.load_existing (INC.disk s1)) = []
    /\ INC.files_to_process listdir (fst (INC.load_existing (INC.disk s1)))
       = INC.all_files listdir.
Proof.
  intros listdir infer to_excel disk0 t s1 Hin.
  assert (Hinv : (forall t', ~ In (ToExcel t' None) (INC.out s1))
                 \/ exists rs, INC.disk s1 = Some (Sheet (frame_of INC.cols rs))).
  { subst s1. unfold INC.main.
    pose proof (INC_load_existing_prints disk0) as Hp.
    destruct (INC.load_existing disk0) as [results printed] eqn:Hload.
    apply (INC_loop_preserves infer to_excel
             (fun s' => (forall t', ~ In (ToExcel t' None) (INC.out s'))
                        \/ exists rs, INC.disk s'
                                      = Some (Sheet (frame_of INC.cols rs)))).
    - intros index filename s0 Hs0.
      destruct (INC_process_cases infer filename)
        as [(e & H) | [(v & H & Hv) | [(d & H & Hd) | (v & H & Hv & Hn)]]].
      + rewrite (INC_process_raises infer to_excel index filename s0 e H).
        cbn [final INC.out INC.disk]. destruct Hs0 as [Hs0 | Hs0]; [left|now right].
        intros t' Ht'. apply in_app_or in Ht'.
        destruct Ht' as [Ht' | [Ht' | [Ht' | []]]];
          [now apply (Hs0 t') | discriminate | discriminate].
      + rewrite (INC_process_falsy infer to_excel index filename s0 v H Hv).
        cbn [final INC.out INC.disk]. destruct Hs0 as [Hs0 | Hs0]; [left|now right].
        intros t' Ht'. apply in_app_single in Ht'.
        destruct Ht' as [Ht' | Ht']; [now apply (Hs0 t') | discriminate].
      + rewrite (INC_process_record infer to_excel index filename s0 d H Hd).
        cbn [final INC.say INC.out INC.disk]. unfold INC.save.
        cbn [INC.results INC.disk INC.out].
        destruct (to_excel index _) as [e|]; cbn [INC.say INC.out INC.disk].
        * destruct Hs0 as [Hs0 | Hs0]; [left|now right].
          intros t' Ht'. apply in_app_single in Ht'.
          destruct Ht' as [Ht' | Ht']; [|discriminate].
          apply in_app_or in Ht'.
          destruct Ht' as [Ht' | [Ht' | [Ht' | []]]];
            [now apply (Hs0 t') | discriminate | discriminate].
        * right. eexists. reflexivity.
      + rewrite (INC_process_crash infer to_excel index filename s0 v H Hv Hn).
        exact Hs0.
    - left. cbn [INC.out]. intros t' Ht'. cbn in Hp.
      destruct disk0 as [[e|t0]|]; cbn in Hload.
      + injection Hload as _ <-. destruct Ht' as [Ht' | []]. discriminate.
      + destruct (existsb _ _); injection Hload as _ <-; destruct Ht'.
      + injection Hload as _ <-. destruct Ht'. }
  destruct Hinv as [Hinv | (rs & Hd)]; [now destruct (Hinv t)|].
  rewrite Hd, INC_load_own_sheet. cbn [fst]. split; [reflexivity|].
  apply INC_files_to_process_fresh.
Qed.

Lemma INC_next_run_starts_over_witness :
  let infer := fun _ : string =>
    Returns (JObj [("invoice_number", JStr "202057121")]) in
  let s1 := final (INC.main ["a.pdf"] infer (fun _ _ => None) None) in
  fst (INC.load_existing (INC.disk s1)) = []
  /\ INC.files_to_process ["a.pdf"] (fst (INC.load_existing (INC.disk s1)))
     = INC.all_files ["a.pdf"].
Proof.
  intros infer.
  apply (INC_next_run_starts_over ["a.pdf"] infer (fun _ _ => None) None
           (frame_of INC.cols
              (INC.expand_rows "a.pdf" [("invoice_number", JStr "202057121")]))).
  cbn. left. reflexivity.
Defined.

(** X16. A truthy answer that is no JSON object (a list, a string, a number)
    ends the batch: [data.get] raises [AttributeError] out of [main]; the
    rows and the file of the documents before it stay, the documents after
    it are not read. *)
Theorem INC_answer_that_is_no_record_ends_the_batch :
  forall (infer : string -> outcome) (to_excel : nat -> table -> option exn)
         (before after : list (nat * string)) (index : nat) (filename : string)
         (s s1 : INC.state) (v : json),
    INC.loop infer to_excel before s = Finished s1 ->
    infer filename = Returns v ->
    truthy v = true ->
    (forall d, v <> JObj d) ->
    INC.loop infer to_excel (before ++ (index, filename) :: after) s
    = Crashed
        {| INC.results := INC.results s1; INC.disk := INC.disk s1;
           INC.out := INC.out s1 |}
        (Exn "AttributeError"
           ("'" ++ type_name v ++ "' object has no attribute 'get'")).
Proof.
  intros infer to_excel before after index filename s s1 v Hb Hi Hv Hn.
  rewrite INC_loop_app, Hb. cbn [INC.loop].
  now rewrite (INC_process_crash infer to_excel index filename s1 v Hi Hv Hn).
Qed.

Lemma INC_answer_that_is_no_record_ends_the_batch_witness :
  INC.loop (fun _ => Returns (JList [JStr "BMOU1441213"])) (fun _ _ => None)
    ([] ++ [(0, "a.pdf"); (1, "b.pdf")]) (INC.State [] None [])
  = Crashed (INC.State [] None [])
      (Exn "AttributeError" "'list' object has no attribute 'get'").
Proof.
  apply (INC_answer_that_is_no_record_ends_the_batch
           (fun _ => Returns (JList [JStr "BMOU1441213"])) (fun _ _ => None)
           [] [(1, "b.pdf")] 0 "a.pdf" (INC.State [] None [])
           (INC.State [] None []) (JList [JStr "BMOU1441213"])).
  - reflexivity.
  - reflexivity.
  - reflexivity.
  - discriminate.
Defined.

Section INC_independence.

Variable infer : string -> outcome.
Variable to_excel : nat -> table -> option exn.

(** What a loop adds to the rows and hands to the writer depends on the
    rows it starts from, not on the file or on what was printed before. *)
Lemma INC_loop_rows_independent (work : list (nat * string)) (s t : INC.state) :
  INC.results s = INC.results t ->
  attempts (INC.out s) = attempts (INC.out t) ->
  INC.results (final (INC.loop infer to_excel work s))
  = INC.results (final (INC.loop infer to_excel work t))
  /\ attempts (INC.out (final (INC.loop infer to_excel work s)))
     = attempts (INC.out (final (INC.loop infer to_excel work t))).
Proof.
  revert s t. induction work as [|[index filename] work IH]; intros s t Hr Ha.
  - now split.
  - cbn [INC.loop].
    destruct (INC_process_cases infer filename)
      as [(e & H) | [(v & H & Hv) | [(d & H & Hd) | (v & H & Hv & Hn)]]].
    + rewrite !(INC_process_raises infer to_excel index filename _ e H).
      apply IH; cbn [INC.results INC.out]; [exact Hr|].
      rewrite !attempts_app. now rewrite Ha.
    + rewrite !(INC_process_falsy infer to_excel index filename _ v H Hv).
      apply IH; cbn [INC.results INC.out]; [exact Hr|].
      rewrite !attempts_app. now rewrite Ha.
    + rewrite !(INC_process_record infer to_excel index filename _ d H Hd).
      apply IH; cbn [INC.say INC.results INC.out].
      * rewrite !INC_save_results. cbn [INC.results]. now rewrite Hr.
      * rewrite !attempts_app, !INC_save_attempts. cbn [INC.results INC.out].
        now rewrite Hr, Ha.
    + rewrite !(INC_process_crash infer to_excel index filename _ v H Hv Hn).
      cbn [final INC.results INC.out]. now split.
Qed.

Lemma INC_loop_out_extends (work : list (nat * string)) (s : INC.state) :
  exists es, INC.out (final (INC.loop infer to_excel work s))
             = (INC.out s ++ es)%list.
Proof.
  revert s. induction work as [|[index filename] work IH]; intros s.
  - exists []. cbn. now rewrite app_nil_r.
  - cbn [INC.loop].
    assert (Hstep : exists es,
               INC.out (final (INC.process infer to_excel index filename s))
               = (INC.out s ++ es)%list).
    { destruct (INC_process_cases infer filename)
        as [(e & H) | [(v & H & Hv) | [(d & H & Hd) | (v & H & Hv & Hn)]]].
      - rewrite (INC_process_raises infer to_excel index filename s e H).
        eexists. reflexivity.
      - rewrite (INC_process_falsy infer to_excel index filename s v H Hv).
        eexists. reflexivity.
      - rewrite (INC_process_record infer to_excel index filename s d H Hd).
        cbn [final INC.say INC.out]. unfold INC.save.
        destruct (to_excel index _); cbn [INC.say INC.out];
          rewrite <- ?app_assoc; eexists; reflexivity.
      - rewrite (INC_process_crash infer to_excel index filename s v H Hv Hn).
        exists []. cbn. now rewrite app_nil_r. }
    destruct (INC.process infer to_excel index filename s) as [s0|s0 e];
      cbn [final] in Hstep.
    + destruct (IH s0) as (es & Hes). destruct Hstep as (es0 & Hes0).
      exists (es0 ++ es)%list. now rewrite Hes, Hes0, app_assoc.
    + exact Hstep.
Qed.

End INC_independence.

(** X17. An output file that [pd.read_excel] cannot read does not stop the
    batch: the run first prints the warning and then adds the rows and
    attempts the writes of a run that finds no file at all. *)
Theorem INC_unreadable_file_means_fresh_start :
  forall (listdir : list string) (infer : string -> outcome)
         (to_excel : nat -> table -> option exn) (e : exn),
    let s := final (INC.main listdir infer to_excel (Some (Unreadable e))) in
    let s0 := final (INC.main listdir infer to_excel None) in
    INC.results s = INC.results s0
    /\ attempts (INC.out s) = attempts (INC.out s0)
    /\ hd_error (INC.out s)
       = Some (Print ("Could not load existing file: " ++ exn_msg e
                      ++ ". Starting fresh.")).
Proof.
  intros listdir infer to_excel e. cbv zeta. unfold INC.main.
  cbn [INC.load_existing].
  split; [|split].
  - now apply INC_loop_rows_independent.
  - now apply INC_loop_rows_independent.
  - match goal with |- context [INC.loop _ _ ?w ?st] =>
      destruct (INC_loop_out_extends infer to_excel w st) as (es & ->) end.
    reflexivity.
Qed.

(** ** MAERSK_NA: one row per document *)

Lemma NA_save_results (w : table -> option exn) (s : NA.state) :
  NA.results (NA.save w s) = NA.results s.
Proof. unfold NA.save. now destruct (w _). Qed.

Lemma NA_save_attempts (w : table -> option exn) (s : NA.state) :
  attempts (NA.out (NA.save w s))
  = (attempts (NA.out s) ++ [frame_of NA.cols (NA.results s)])%list.
Proof.
  unfold NA.save. destruct (w _); cbn; now rewrite attempts_app.
Qed.

(** X18. MAERSK_NA keeps one row per extracted document, however many
    containers it names: the record itself, with the document's name under
    [filename] (in place of a [filename] the record may have had) and every
    other key untouched; the frame of all rows is then handed to the
    writer. *)
Theorem NA_one_row_per_document :
  forall (infer : string -> outcome) (to_excel : nat -> table -> option exn)
         (index : nat) (filename : string) (s : NA.state) (d : dict),
    infer filename = Returns (JObj d) ->
    d <> [] ->
    exists (s' : NA.state) (r : dict),
      NA.process infer to_excel index filename s = Finished s'
      /\ NA.results s' = (NA.results s ++ [r])%list
      /\ dict_lookup "filename" r = Some (JStr filename)
      /\ (forall k, k <> "filename" -> dict_lookup k r = dict_lookup k d)
      /\ attempts (NA.out s')
         = (attempts (NA.out s) ++ [frame_of NA.cols (NA.results s')])%list.
Proof.
  intros infer to_excel index filename s d H Hd.
  rewrite (NA_process_record infer to_excel index filename s d H Hd).
  eexists. exists (dict_set "filename" (JStr filename) d).
  split; [reflexivity|]. cbn [NA.say NA.results NA.out].
  rewrite NA_save_results, attempts_app, NA_save_attempts.
  cbn [NA.results NA.out]. repeat split.
  - apply dict_lookup_set.
  - intros k Hk. now apply dict_lookup_set_other.
  - cbn. now rewrite app_nil_r.
Qed.

Lemma NA_one_row_per_document_witness :
  exists (s' : NA.state) (r : dict),
    NA.process
      (fun _ => Returns (JObj [("filename", JStr "scan-17");
                               ("container_number", JStr "MSKU2804235")]))
      (fun _ _ => None) 0 "a.pdf" (NA.State [] None [])
    = Finished s'
    /\ NA.results s' = [r]
    /\ dict_lookup "filename" r = Some (JStr "a.pdf")
    /\ (forall k, k <> "filename" ->
                  dict_lookup k r
                  = dict_lookup k [("filename", JStr "scan-17");
                                   ("container_number", JStr "MSKU2804235")])
    /\ attempts (NA.out s') = [frame_of NA.cols (NA.results s')].
Proof.
  apply (NA_one_row_per_document
           (fun _ => Returns (JObj [("filename", JStr "scan-17");
                                    ("container_number", JStr "MSKU2804235")]))
           (fun _ _ => None) 0 "a.pdf" (NA.State [] None [])
           [("filename", JStr "scan-17");
            ("container_number", JStr "MSKU2804235")]).
  - reflexivity.
  - discriminate.
Defined.

(** * File names *)

Lemma string_length_app (a b : string) :
  String.length (a ++ b) = String.length a + String.length b.
Proof. induction a as [|c a IH]; cbn; [reflexivity|now rewrite IH]. Qed.

Lemma substring_whole (x : string) : substring 0 (String.length x) x = x.
Proof. induction x as [|c x IH]; cbn; [reflexivity|now rewrite IH]. Qed.

Lemma substring_past (h x : string) (m : nat) :
  substring (String.length h) m (h ++ x) = substring 0 m x.
Proof. induction h as [|c h IH]; cbn; [reflexivity|exact IH]. Qed.

Lemma string_split_at (s : string) (k : nat) :
  k <= String.length s ->
  s = substring 0 k s ++ substring k (String.length s - k) s.
Proof.
  revert k. induction s as [|c s IH]; intros k Hk.
  - cbn in Hk. replace k with 0 by lia. reflexivity.
  - destruct k as [|k]; cbn.
    + now rewrite substring_whole.
    + cbn in Hk. f_equal. apply IH. lia.
Qed.

(** [s.endswith(suffix)] says that [s] is some head followed by [suffix]. *)
Lemma endswith_iff (s suffix : string) :
  endswith s suffix = true <-> exists h, s = h ++ suffix.
Proof.
  unfold endswith. rewrite andb_true_iff, Nat.leb_le, String.eqb_eq. split.
  - intros (Hle & Hsub).
    exists (substring 0 (String.length s - String.length suffix) s).
    pose proof (string_split_at s (String.length s - String.length suffix))
      as H.
    replace (String.length s - (String.length s - String.length suffix))
      with (String.length suffix) in H by lia.
    rewrite Hsub in H. apply H. lia.
  - intros (h & ->). rewrite string_length_app. split; [lia|].
    replace (String.length h + String.length suffix - String.length suffix)
      with (String.length h) by lia.
    rewrite substring_past. apply substring_whole.
Qed.

Lemma lower_ascii_dot (c : ascii) :
  Ascii.eqb (lower_ascii c) "." = Ascii.eqb c ".".
Proof.
  destruct c as [[] [] [] [] [] [] [] []]; reflexivity.
Qed.

Lemma lower_app (a b : string) : lower (a ++ b) = lower a ++ lower b.
Proof. induction a as [|c a IH]; cbn; [reflexivity|now rewrite IH]. Qed.

Lemma lower_app_inv (f a b : string) :
  lower f = a ++ b ->
  exists a' b', f = a' ++ b' /\ lower a' = a /\ lower b' = b.
Proof.
  revert f. induction a as [|c a IH]; intros f H.
  - exists "", f. repeat split. exact H.
  - destruct f as [|c' f]; [discriminate|]. cbn in H.
    injection H as Hc Hf. destruct (IH f Hf) as (a' & b' & -> & Ha & Hb).
    exists (String c' a'), b'. cbn. now rewrite Hc, Ha, Hb.
Qed.

Lemma contains_dot_lower (s : string) :
  contains_dot (lower s) = contains_dot s.
Proof.
  induction s as [|c s IH]; [reflexivity|].
  cbn. now rewrite lower_ascii_dot, IH.
Qed.

Lemma contains_dot_app (a b : string) :
  contains_dot (a ++ b) = contains_dot a || contains_dot b.
Proof.
  induction a as [|c a IH]; [reflexivity|].
  cbn. now rewrite IH, orb_assoc.
Qed.

(** [rsplit('.', 1)] cuts at the last dot. *)
Lemma rsplit_dot_without (s : string) :
  contains_dot s = false -> rsplit_dot s = [s].
Proof.
  induction s as [|c s IH]; [reflexivity|].
  cbn. intros H. apply orb_false_iff in H. destruct H as (Hc & Hs).
  now rewrite (IH Hs), Hc.
Qed.

Lemma rsplit_dot_at_last (h t : string) :
  contains_dot t = false -> rsplit_dot (h ++ "." ++ t) = [h; t].
Proof.
  intros Ht. induction h as [|c h IH].
  - cbn. now rewrite (rsplit_dot_without t Ht).
  - cbn [append rsplit_dot]. cbn [append] in IH. now rewrite IH.
Qed.

Lemma last_dot (s : string) :
  contains_dot s = true ->
  exists h t, s = h ++ "." ++ t /\ contains_dot t = false.
Proof.
  induction s as [|c s IH]; [discriminate|].
  cbn. destruct (contains_dot s) eqn:Hs.
  - intros _. destruct (IH eq_refl) as (h & t & -> & Ht).
    exists (String c h), t. now split.
  - rewrite orb_false_r. intros Hc. apply Ascii.eqb_eq in Hc. subst c.
    exists "", s. now split.
Qed.

Lemma allowed_file_without_dot (f : string) :
  contains_dot f = false -> APP.allowed_file f = false.
Proof. unfold APP.allowed_file. now intros ->. Qed.

Lemma allowed_file_at_last_dot (h t : string) :
  contains_dot t = false ->
  APP.allowed_file (h ++ "." ++ t) = String.eqb (lower t) "pdf".
Proof.
  intros Ht. unfold APP.allowed_file.
  rewrite (rsplit_dot_at_last h t Ht), contains_dot_app. cbn.
  now rewrite orb_true_r, orb_false_r.
Qed.

(** X19. [allowed_file] accepts exactly the names whose part after the last dot
    is [pdf] in any mix of upper and lower case. *)
Theorem allowed_file_accepts_the_pdf_extension :
  forall f : string,
    APP.allowed_file f = true
    <-> exists stem ext : string,
          f = stem ++ "." ++ ext
          /\ contains_dot ext = false
          /\ lower ext = "pdf".
Proof.
  intros f. split.
  - intros H. destruct (contains_dot f) eqn:Hd.
    + destruct (last_dot f Hd) as (h & t & -> & Ht).
      rewrite (allowed_file_at_last_dot h t Ht) in H.
      apply String.eqb_eq in H. now exists h, t.
    + rewrite (allowed_file_without_dot f Hd) in H. discriminate.
  - intros (h & t & -> & Ht & Hl).
    rewrite (allowed_file_at_last_dot h t Ht). now apply String.eqb_eq.
Qed.

(** X20. The service and the batch scripts pick the same file names: the test
    of [allowed_file] and the test [f.lower().endswith('.pdf')] of the
    directory scan agree on every name. *)
Theorem service_and_batch_pick_the_same_names :
  forall (f : string) (listdir : list string),
    APP.allowed_file f = endswith (lower f) ".pdf"
    /\ INC.all_files listdir = filter APP.allowed_file listdir
    /\ NA.all_files listdir = filter APP.allowed_file listdir.
Proof.
  assert (Hsame : forall f, APP.allowed_file f = endswith (lower f) ".pdf").
  { intros f. apply eq_iff_eq_true. rewrite endswith_iff. split.
    - intros H. destruct (contains_dot f) eqn:Hd.
      + destruct (last_dot f Hd) as (h & t & -> & Ht).
        rewrite (allowed_file_at_last_dot h t Ht) in H.
        apply String.eqb_eq in H. exists (lower h).
        rewrite !lower_app, H. reflexivity.
      + rewrite (allowed_file_without_dot f Hd) in H. discriminate.
    - intros (h0 & H). apply lower_app_inv in H.
      destruct H as (h & x & -> & _ & Hx).
      destruct x as [|c t]; [discriminate|]. cbn in Hx.
      injection Hx as Hc Ht.
      assert (c = "."%char) as ->.
      { apply Ascii.eqb_eq. rewrite <- lower_ascii_dot, Hc. reflexivity. }
      assert (Hnd : contains_dot t = false)
        by (rewrite <- contains_dot_lower, Ht; reflexivity).
      change (h ++ String "." t) with (h ++ "." ++ t).
      rewrite (allowed_file_at_last_dot h t Hnd). now apply String.eqb_eq. }
  intros f listdir. split; [apply Hsame|].
  split; apply filter_ext; intros a; now rewrite Hsame.
Qed.

(** * Resume in MAERSK_NA *)

Section NA_loop.

Variable infer : string -> outcome.
Variable to_excel : nat -> table -> option exn.

Lemma NA_loop_preserves (P : NA.state -> Prop) :
  (forall index filename s,
      P s -> P (final (NA.process infer to_excel index filename s))) ->
  forall work s, P s -> P (final (NA.loop infer to_excel work s)).
Proof.
  intros Hstep work. induction work as [|[index filename] work IH]; intros s Hs.
  - exact Hs.
  - cbn. specialize (Hstep index filename s Hs).
    destruct (NA.process infer to_excel index filename s) as [s'|s' e].
    + apply IH. exact Hstep.
    + exact Hstep.
Qed.

(** A turn adds at most the one row of its document and, when it writes,
    writes the frame of all rows. *)
Lemma NA_process_summary (index : nat) (filename : string) (s : NA.state) :
  let s' := final (NA.process infer to_excel index filename s) in
  (NA.results s' = NA.results s
   /\ NA.disk s' = NA.disk s
   /\ attempts (NA.out s') = attempts (NA.out s))
  \/ (exists d,
         infer filename = Returns (JObj d)
         /\ NA.results s'
            = (NA.results s ++ [dict_set "filename" (JStr filename) d])%list
         /\ attempts (NA.out s')
            = (attempts (NA.out s) ++ [frame_of NA.cols (NA.results s')])%list
         /\ (NA.disk s' = NA.disk s
             \/ NA.disk s' = Some (Sheet (frame_of NA.cols (NA.results s'))))).
Proof.
  destruct (INC_process_cases infer filename)
    as [(e & H) | [(v & H & Hv) | [(d & H & Hd) | (v & H & Hv & Hn)]]].
  - rewrite (NA_process_raises infer to_excel index filename s e H). left.
    cbn. repeat split. rewrite attempts_app. cbn. apply app_nil_r.
  - rewrite (NA_process_falsy infer to_excel index filename s v H Hv). left.
    cbn. repeat split. rewrite attempts_app. cbn. apply app_nil_r.
  - rewrite (NA_process_record infer to_excel index filename s d H Hd). right.
    exists d. cbn [final NA.say NA.results NA.disk NA.out].
    rewrite NA_save_results, attempts_app, NA_save_attempts.
    cbn [NA.results NA.out].
    split; [exact H|]. split; [reflexivity|]. split.
    + cbn. now rewrite app_nil_r.
    + unfold NA.save. cbn [NA.results].
      destruct (to_excel index _); [left|right]; reflexivity.
  - rewrite (NA_process_crash infer to_excel index filename s v H Hv Hn). left.
    cbn. repeat split.
Qed.

End NA_loop.

(** X21. In MAERSK_NA a document whose extraction raises is not marked: it was
    pending in this run and it is pending again in a run started from the
    file this run leaves, whatever the other documents and the writer
    did. *)
Theorem NA_failed_document_stays_pending :
  forall (listdir : list string) (infer : string -> outcome)
         (to_excel : nat -> table -> option exn) (disk0 : option file_content)
         (x : string) (e : exn),
    infer x = Raises e ->
    In x (NA.files_to_process listdir (fst (NA.load_existing disk0))) ->
    let s' := final (NA.main listdir infer to_excel disk0) in
    str_in x (NA.processed_files (NA.results s')) = false
    /\ In x (NA.files_to_process listdir (fst (NA.load_existing (NA.disk s')))).
Proof.
  intros listdir infer to_excel disk0 x e Hx Hpending.
  pose proof Hpending as Hp. unfold NA.files_to_process in Hp.
  apply filter_In in Hp. destruct Hp as (Hall & Hnot).
  apply negb_true_iff in Hnot.
  assert (Hinv :
    let s' := final (NA.main listdir infer to_excel disk0) in
    str_in x (NA.processed_files (NA.results s')) = false
    /\ str_in x (NA.processed_files (fst (NA.load_existing (NA.disk s'))))
       = false).
  { unfold NA.main.
    destruct (NA.load_existing disk0) as [results printed] eqn:Hload.
    cbn [fst] in Hnot. cbv zeta.
    apply (NA_loop_preserves infer to_excel
             (fun s' =>
                str_in x (NA.processed_files (NA.results s')) = false
                /\ str_in x (NA.processed_files
                               (fst (NA.load_existing (NA.disk s')))) = false)).
    - intros index filename s0 (Hr0 & Hd0).
      destruct (NA_process_summary infer to_excel index filename s0)
        as [(Hr & Hd & _) | (d & Hi & Hr & _ & Hd)].
      + now rewrite Hr, Hd.
      + assert (Hnew : str_in x (NA.processed_files
                                   (NA.results
                                      (final (NA.process infer to_excel index
                                                filename s0)))) = false).
        { rewrite Hr, NA_processed_files_app, str_in_app, Hr0. cbn.
          unfold dict_contains, dict_get. rewrite dict_lookup_set. cbn.
          destruct (String.eqb_spec filename x) as [->|]; [congruence|reflexivity]. }
        split; [exact Hnew|].
        destruct Hd as [Hd | Hd]; rewrite Hd; [exact Hd0|].
        now rewrite NA_in_step_after_write.
    - cbn [NA.results NA.disk]. rewrite Hload. now split. }
  destruct Hinv as (H1 & H2). split; [exact H1|].
  unfold NA.files_to_process. apply filter_In. split; [exact Hall|].
  now rewrite H2.
Qed.

Lemma NA_failed_document_stays_pending_witness :
  let infer := fun f : string =>
    if String.eqb f "x.pdf"
    then Raises (Exn "DeadlineExceeded" "504 Deadline Exceeded")
    else Returns (JObj [("invoice_number", JStr "698064567")]) in
  let s' := final (NA.main ["a.pdf"; "x.pdf"] infer (fun _ _ => None) None) in
  str_in "x.pdf" (NA.processed_files (NA.results s')) = false
  /\ In "x.pdf"
       (NA.files_to_process ["a.pdf"; "x.pdf"]
          (fst (NA.load_existing (NA.disk s')))).
Proof.
  intros infer.
  apply (NA_failed_document_stays_pending ["a.pdf"; "x.pdf"] infer
           (fun _ _ => None) None "x.pdf"
           (Exn "DeadlineExceeded" "504 Deadline Exceeded")).
  - reflexivity.
  - cbn. right. left. reflexivity.
Defined.

(** X22. Every table MAERSK_NA hands to the writer has the nine columns of its
    schema in their fixed order and one cell under each in every row. *)
Theorem NA_written_tables_have_the_fixed_columns :
  forall (listdir : list string) (infer : string -> outcome)
         (to_excel : nat -> table -> option exn) (disk0 : option file_content)
         (t : table),
    In t (attempts (NA.out (final (NA.main listdir infer to_excel disk0)))) ->
    laid_out NA.cols t.
Proof.
  intros listdir infer to_excel disk0. apply Forall_forall.
  unfold NA.main. pose proof (NA_load_existing_prints disk0) as Hp.
  destruct (NA.load_existing disk0) as [results printed]. cbn [snd] in Hp.
  apply (NA_loop_preserves infer to_excel
           (fun s' => Forall (laid_out NA.cols) (attempts (NA.out s')))).
  - intros index filename s0 Hs0.
    destruct (NA_process_summary infer to_excel index filename s0)
      as [(_ & _ & Ha) | (d & _ & _ & Ha & _)]; rewrite Ha; [exact Hs0|].
    apply Forall_app. split; [exact Hs0|].
    constructor; [apply frame_of_laid_out|constructor].
  - cbn [NA.out]. rewrite Hp. constructor.
Qed.

Lemma NA_written_tables_have_the_fixed_columns_witness :
  laid_out NA.cols
    (frame_of NA.cols
       [dict_set "filename" (JStr "a.pdf") [("pcd", JStr "10/25/2023")]]).
Proof.
  apply (NA_written_tables_have_the_fixed_columns ["a.pdf"]
           (fun _ => Returns (JObj [("pcd", JStr "10/25/2023")]))
           (fun _ _ => None) None).
  cbn. left. reflexivity.
Defined.

(** * Schema drift in MAERSK_NA *)

Lemma existsb_filename (columns : list string) :
  In "filename" columns -> existsb (String.eqb "filename") columns = true.
Proof.
  intros H. apply existsb_exists. exists "filename". split; [exact H|].
  apply String.eqb_refl.
Qed.

(** X23. A sheet with a [filename] column is loaded row by row, and at the
    next save every loaded row is laid out on the nine columns of the
    schema: under a column the sheet had, the cell it had there; under a
    column the sheet lacked, null. *)
Theorem NA_missing_columns_are_filled_with_null :
  forall (t : table) (added : list dict) (i : nat) (row : list json),
    In "filename" (columns t) ->
    nth_error (cells t) i = Some row ->
    let results := fst (NA.load_existing (Some (Sheet t))) in
    let df := frame_of NA.cols (results ++ added) in
    List.length results = List.length (cells t)
    /\ exists row' : list json,
        nth_error (cells df) i = Some row'
        /\ forall c : string,
            In c NA.cols ->
            cell df row' c
            = Some match cell t row c with Some v => v | None => JNull end.
Proof.
  intros t added i row Hfn Hrow results df. subst df results.
  unfold NA.load_existing. rewrite (existsb_filename _ Hfn). cbn [fst].
  unfold to_dict_records. split; [apply length_map|].
  unfold frame_of. cbn [cells columns]. rewrite map_app, map_map.
  rewrite nth_error_app1
    by (rewrite length_map; apply nth_error_Some; congruence).
  rewrite nth_error_map, Hrow. cbn [option_map]. eexists.
  split; [reflexivity|]. intros c Hc. unfold cell. cbn [columns].
  rewrite (cell_frame_of NA.cols _ c Hc). reflexivity.
Qed.

Lemma NA_missing_columns_are_filled_with_null_witness :
  let t := {| columns := ["filename"; "invoice_number"];
              cells := [[JStr "a.pdf"; JStr "698064567"]] |} in
  let results := fst (NA.load_existing (Some (Sheet t))) in
  let df := frame_of NA.cols (results ++ []) in
  List.length results = 1
  /\ exists row' : list json,
      nth_error (cells df) 0 = Some row'
      /\ forall c : string,
          In c NA.cols ->
          cell df row' c
          = Some match cell t [JStr "a.pdf"; JStr "698064567"] c with
                 | Some v => v
                 | None => JNull
                 end.
Proof.
  intros t.
  apply (NA_missing_columns_are_filled_with_null t [] 0
           [JStr "a.pdf"; JStr "698064567"]).
  - left. reflexivity.
  - reflexivity.
Defined.

(** * Answers that are no record, in the service *)

(** X24. When the model answers an accepted request with JSON that is no
    object ([null], a list, a string, a number), [extract] answers 500 with
    the message of the [AttributeError] raised by [data.get]; no row is
    added and nothing is written.  (The batch script ends on such an
    answer when it is truthy.) *)
Theorem extract_answer_that_is_no_record :
  forall (secure_filename : string -> string) (DEFAULT_PROMPT : string)
         (w : APP.world) (req : APP.request) (s : APP.state)
         (key : string) (f : APP.upload) (v : json),
    accepted req key f ->
    answer DEFAULT_PROMPT w req key f = Returns v ->
    (forall d, v <> JObj d) ->
    let r := APP.extract secure_filename DEFAULT_PROMPT w req s in
    fst r
    = APP.Response 500
        (APP.ErrorJson ("'" ++ type_name v ++ "' object has no attribute 'get'"))
    /\ APP.extraction_results (snd r) = APP.extraction_results s
    /\ APP.output_file (snd r) = APP.output_file s
    /\ attempts (APP.out (snd r)) = attempts (APP.out s).
Proof.
  intros secure_filename DEFAULT_PROMPT w req s key f v
    (Hk & Hkne & Hf & Hfne & Hal) Hans Hv r. subst r.
  unfold APP.extract. rewrite Hk.
  destruct (String.eqb_spec key ""); [contradiction|].
  rewrite Hf. destruct (String.eqb_spec (APP.filename f) ""); [contradiction|].
  rewrite Hal. cbn [negb orb]. unfold APP.extract_from_pdf.
  unfold answer in Hans. rewrite Hans.
  assert (Hout : attempts (APP.out (APP.say s [])) = attempts (APP.out s))
    by (cbn; now rewrite app_nil_r).
  destruct v; try (split; [reflexivity|]; split; [reflexivity|];
                   split; [reflexivity|exact Hout]).
  now destruct (Hv kv).
Qed.

Lemma extract_answer_that_is_no_record_witness :
  let r := APP.extract (fun name => name) "prompt"
             (APP.World (fun _ _ _ => Returns JNull) (fun _ => None))
             (APP.Request (Some "key") None (Some (APP.Upload "a.pdf" "%PDF")))
             (APP.State [] None []) in
  fst r
  = APP.Response 500
      (APP.ErrorJson "'NoneType' object has no attribute 'get'")
  /\ APP.extraction_results (snd r) = []
  /\ APP.output_file (snd r) = None
  /\ attempts (APP.out (snd r)) = [].
Proof.
  apply (extract_answer_that_is_no_record (fun name => name) "prompt"
           (APP.World (fun _ _ _ => Returns JNull) (fun _ => None))
           (APP.Request (Some "key") None (Some (APP.Upload "a.pdf" "%PDF")))
           (APP.State [] None []) "key" (APP.Upload "a.pdf" "%PDF") JNull).
  - repeat split; discriminate.
  - reflexivity.
  - discriminate.
Defined.
